(** * Patient chart widgets: conditions overview and order cancellation form

    A shallow embedding of the two React components

    - [conditions-overview.component.tsx] (esm-patient-conditions-app), and
    - [cancel-order-form.component.tsx]   (esm-patient-orders-app),

    together with the properties of their filtering, projection, sorting,
    validation and submission logic.

    Values that TypeScript types as [string] but that the components guard
    with [?.] or a truthiness test are modelled as [option string], with
    [None] standing for JavaScript's [undefined]. *)

From Stdlib Require Import ZArith String List Bool Lia.
From stdpp Require Import base option list strings gmap.

Local Open Scope string_scope.
Local Open Scope list_scope.
Local Open Scope Z_scope.

(** ** The fragment of JavaScript the components rely on *)

Module Js.

(** A JavaScript number, restricted to the values the components compute
    with: integral time values (milliseconds) and [NaN]. *)
Inductive number : Type :=
| Num (z : Z)
| NaN.

(** The double nearest to an integer, ties to the even significand: exact
    below 2^53 in magnitude, a multiple of the spacing [ulp] of the doubles
    of that magnitude above. The integers that occur are time values and
    their differences, far from the largest double. *)
Definition round_to_double (z : Z) : Z :=
  let a := Z.abs z in
  if a <? 2 ^ 53 then z
  else
    let ulp := 2 ^ (Z.log2 a - 52) in
    let q := a / ulp in
    let r := a mod ulp in
    let q' := if 2 * r <? ulp then q
              else if ulp <? 2 * r then q + 1
              else if Z.even q then q else q + 1 in
    Z.sgn z * (q' * ulp).

(** [a - b] on numbers: the exact difference, rounded to a double. *)
Definition sub (a b : number) : number :=
  match a, b with
  | Num x, Num y => Num (round_to_double (x - y))
  | _, _ => NaN
  end.

(** [a >= b] on numbers: false as soon as one side is [NaN]. *)
Definition geb (a b : number) : bool :=
  match a, b with
  | Num x, Num y => Z.leb y x
  | _, _ => false
  end.

(** What an expression may evaluate to where the components mix numbers
    with [undefined]. *)
Inductive value : Type :=
| Undefined
| Number (n : number).

(** The outcome of evaluating an expression: a value, or a thrown error. *)
Inductive completion (A : Type) : Type :=
| Normal (a : A)
| Throw (error : string).
Arguments Normal {A} a.
Arguments Throw {A} error.

(** [ToBoolean] on a string that may be [undefined]: the empty string and
    [undefined] are falsy. *)
Definition truthy (s : option string) : bool :=
  match s with
  | Some s => negb (String.eqb s "")
  | None => false
  end.

(** [ToString] on a string that may be [undefined]. *)
Definition ToString (s : option string) : string :=
  match s with
  | Some s => s
  | None => "undefined"
  end.

(** [a === b] between a possibly-undefined string and a string. *)
Definition strict_eq (a : option string) (b : string) : bool :=
  match a with
  | Some a => String.eqb a b
  | None => false
  end.

(** [this.m(...)] for a string method [m]: a [TypeError] when [this] is
    [undefined]. *)
Definition call {A : Type} (this : option string) (m : string -> A) : completion A :=
  match this with
  | Some s => Normal (m s)
  | None => Throw "TypeError"
  end.

(** [this?.m(...)]: short-circuits to [undefined] when [this] is
    [undefined], and is the plain call otherwise. *)
Definition optional_call (this : option string) (m : string -> value) : completion value :=
  match this with
  | Some _ => call this m
  | None => Normal Undefined
  end.

End Js.

(** ** Translated text

    [t(key, fallback, interpolations)] is an opaque lookup; a translated
    string is represented by the arguments of the lookup that produces it. *)

Inductive Text : Type :=
| Literal (s : string)
| t (key fallback : string) (interpolation : list (string * string)).

(** ** Conditions overview *)

Module ConditionsOverview.

(** Modelled from the spec: the type [Condition], which is declared in
    [conditions.resource] and not in the component. The spec's data model
    gives a condition an identifier, a display label, a clinical status, an
    optional onset timestamp and an optional abatement timestamp; these are
    also the fields the component reads. [rest] stands for the other fields
    of the declaration, whatever they are. *)
Record Condition (Rest : Type) : Type := {
  id : string;
  display : option string;
  clinicalStatus : option string;
  onsetDateTime : option string;
  abatementDateTime : option string;
  rest : Rest
}.
Arguments id {Rest} _.
Arguments display {Rest} _.
Arguments clinicalStatus {Rest} _.
Arguments onsetDateTime {Rest} _.
Arguments abatementDateTime {Rest} _.
Arguments rest {Rest} _.

(** [interface ConditionTableRow extends Condition]. *)
Module Row.
Record ConditionTableRow (Rest : Type) : Type := {
  id : string;
  display : option string;
  clinicalStatus : option string;
  onsetDateTime : option string;
  abatementDateTime : option string;
  rest : Rest;
  condition : option string;
  onsetDateTimeRender : string;
  status : option string
}.
Arguments id {Rest} _.
Arguments display {Rest} _.
Arguments clinicalStatus {Rest} _.
Arguments onsetDateTime {Rest} _.
Arguments abatementDateTime {Rest} _.
Arguments rest {Rest} _.
Arguments condition {Rest} _.
Arguments onsetDateTimeRender {Rest} _.
Arguments status {Rest} _.
End Row.
Export Row(ConditionTableRow).

(** [useState<'All' | 'Active' | 'Inactive'>('Active')]. *)
Inductive Filter : Type := All | Active | Inactive.

Definition Filter_string (f : Filter) : string :=
  match f with
  | All => "All"
  | Active => "Active"
  | Inactive => "Inactive"
  end.

Definition initialFilter : Filter := Active.

(** Options passed to [formatDate]. *)
Record FormatOptions : Type := {
  mode : string;
  time : string
}.

(** What the component takes from the platform and from the JavaScript
    runtime. Each function receives the field as the component passes it,
    that is, possibly [undefined]. *)
Class Framework : Type := {
  DateObject : Type;
  parseDate : option string -> DateObject;
  formatDate : DateObject -> FormatOptions -> string;
  (** [a.localeCompare(b)] on two strings *)
  localeCompare : string -> string -> Z;
  (** [new Date(v).getTime()] *)
  Date_getTime : option string -> Js.number
}.

Section Presenter.
Context `{Framework} {Rest : Type}.

#[local] Abbreviation Condition := (Condition Rest).
#[local] Abbreviation ConditionTableRow := (ConditionTableRow Rest).

(** [filteredConditions], lines 76-86. [conditions] is [undefined] until the
    first fetch settles, hence the [?.] of the source. *)
Definition filteredConditions (filter : Filter) (conditions : option (list Condition))
  : option (list Condition) :=
  if negb (Js.truthy (Some (Filter_string filter)))
     || String.eqb (Filter_string filter) "All"
  then conditions
  else if Js.truthy (Some (Filter_string filter))
  then List.filter
         (fun condition => Js.strict_eq (clinicalStatus condition) (Filter_string filter))
       <$> conditions
  else conditions.

(** The comparators of [headers], lines 88-113. *)
Definition display_sortFunc (valueA valueB : ConditionTableRow) : Js.completion Js.value :=
  Js.optional_call (Row.display valueA)
    (fun a => Js.Number (Js.Num (localeCompare a (Js.ToString (Row.display valueB))))).

Definition onsetDateTimeRender_sortFunc (valueA valueB : ConditionTableRow)
  : Js.completion Js.value :=
  Js.Normal
    (Js.Number
       (if Js.truthy (Row.onsetDateTime valueA) && Js.truthy (Row.onsetDateTime valueB)
        then Js.sub (Date_getTime (Row.onsetDateTime valueA))
                    (Date_getTime (Row.onsetDateTime valueB))
        else Js.Num 0)).

Definition status_sortFunc (valueA valueB : ConditionTableRow) : Js.completion Js.value :=
  Js.optional_call (Row.status valueA)
    (fun a => Js.Number (Js.Num (localeCompare a (Js.ToString (Row.status valueB))))).

Record ConditionTableHeader : Type := {
  key : string;
  header : Text;
  isSortable : bool;
  sortFunc : ConditionTableRow -> ConditionTableRow -> Js.completion Js.value
}.

Definition headers : list ConditionTableHeader :=
  [ {| key := "display"; header := t "condition" "Condition" [];
       isSortable := true; sortFunc := display_sortFunc |};
    {| key := "onsetDateTimeRender"; header := t "dateOfOnset" "Date of onset" [];
       isSortable := true; sortFunc := onsetDateTimeRender_sortFunc |};
    {| key := "status"; header := t "status" "Status" [];
       isSortable := true; sortFunc := status_sortFunc |} ].

(** The projection inside [tableRows], lines 116-127: the spread
    [...condition] followed by the five explicit properties. *)
Definition tableRow (condition : Condition) : ConditionTableRow :=
  {| Row.id := id condition;
     Row.display := display condition;
     Row.clinicalStatus := clinicalStatus condition;
     Row.onsetDateTime := onsetDateTime condition;
     Row.abatementDateTime := abatementDateTime condition;
     Row.rest := rest condition;
     Row.condition := display condition;
     Row.onsetDateTimeRender :=
       if Js.truthy (onsetDateTime condition)
       then formatDate (parseDate (onsetDateTime condition))
              {| mode := "wide"; time := "for today" |}
       else "--";
     Row.status := clinicalStatus condition |}.

Definition tableRows (filteredConditions : option (list Condition))
  : option (list ConditionTableRow) :=
  List.map tableRow <$> filteredConditions.

End Presenter.

End ConditionsOverview.

(** ** Order cancellation form *)

Module OrderCancellationForm.

(** A [Date] object, by its time value; [NaN] is an invalid date. *)
Inductive JsDate : Type := Date (time : Js.number).

Definition getTime (d : JsDate) : Js.number := let 'Date n := d in n.

(** What [dayjs()] reads from its host: the current instant in
    milliseconds, and the time zone as the host's [LocalTZA(t, isUTC)], the
    offset of local time from UTC in milliseconds, either at the instant
    [t] ([isUTC] true) or for the local time [t] ([isUTC] false). *)
Record Clock : Type := {
  now : Z;
  LocalTZA : Z -> bool -> Z
}.

Definition msPerDay : Z := 86400000.

(** [LocalTime(t)], [UTC(t)], [Day(t)] and [MakeDate(day, time)] of the
    language definition. *)
Definition LocalTime (clock : Clock) (t : Z) : Z := t + LocalTZA clock t true.

Definition UTC (clock : Clock) (t : Z) : Z := t - LocalTZA clock t false.

Definition Day (t : Z) : Z := t / msPerDay.

Definition MakeDate (day time : Z) : Z := day * msPerDay + time.

(** [dayjs().startOf('day')]: dayjs applies [setHours(0, 0, 0, 0)] to the
    current date, which keeps the day of the local time and sets the time
    within the day to zero. *)
Definition startOfDay (clock : Clock) : Z :=
  UTC clock (MakeDate (Day (LocalTime clock (now clock))) 0).

Definition dayjs_startOf_day_toDate (clock : Clock) : JsDate :=
  Date (Js.Num (startOfDay clock)).

(** What a form field holds: nothing yet, [null], or a value. *)
Inductive FieldValue (A : Type) : Type :=
| undefined
| null
| defined (a : A).
Arguments undefined {A}.
Arguments null {A}.
Arguments defined {A} a.

(** *** The schema combinators of zod the form uses *)

Inductive ZodIssueCode : Type := invalid_type | invalid_date | custom.

Module Issue.
Record ZodIssue : Type := {
  code : ZodIssueCode;
  path : list string;
  message : Text
}.
End Issue.
Export Issue(ZodIssue).

Inductive ParseResult (A : Type) : Type :=
| OK (data : A)
| INVALID (issues : list ZodIssue).
Arguments OK {A} data.
Arguments INVALID {A} issues.

Definition Schema (Input Output : Type) : Type := Input -> ParseResult Output.

(** [z.date({ required_error })] *)
Definition z_date (required_error : Text) : Schema (FieldValue JsDate) JsDate :=
  fun input =>
    match input with
    | undefined =>
        INVALID [ {| Issue.code := invalid_type; Issue.path := [];
                     Issue.message := required_error |} ]
    | null =>
        INVALID [ {| Issue.code := invalid_type; Issue.path := [];
                     Issue.message := Literal "Expected date, received null" |} ]
    | defined (Date Js.NaN) =>
        INVALID [ {| Issue.code := invalid_date; Issue.path := [];
                     Issue.message := Literal "Invalid date" |} ]
    | defined date => OK date
    end.

(** [z.string({ required_error })] *)
Definition z_string (required_error : Text) : Schema (FieldValue string) string :=
  fun input =>
    match input with
    | undefined =>
        INVALID [ {| Issue.code := invalid_type; Issue.path := [];
                     Issue.message := required_error |} ]
    | null =>
        INVALID [ {| Issue.code := invalid_type; Issue.path := [];
                     Issue.message := Literal "Expected string, received null" |} ]
    | defined s => OK s
    end.

(** [schema.refine(check, { message })]: the check runs only on input the
    inner schema accepted. *)
Definition z_refine {Input Output : Type} (schema : Schema Input Output)
    (check : Output -> bool) (message : Text) : Schema Input Output :=
  fun input =>
    match schema input with
    | OK data =>
        if check data then OK data
        else INVALID [ {| Issue.code := custom; Issue.path := [];
                          Issue.message := message |} ]
    | INVALID issues => INVALID issues
    end.

Definition issues_of {A : Type} (result : ParseResult A) : list ZodIssue :=
  match result with
  | OK _ => []
  | INVALID issues => issues
  end.

Definition under (key : string) (issues : list ZodIssue) : list ZodIssue :=
  List.map (fun issue => {| Issue.code := Issue.code issue;
                            Issue.path := key :: Issue.path issue;
                            Issue.message := Issue.message issue |}) issues.

(** [z.object({ key1: schema1, key2: schema2 })]: every key is parsed and
    the issues of all keys are reported, each under its key. *)
Definition z_object {Input I1 O1 I2 O2 Output : Type}
    (key1 : string) (get1 : Input -> I1) (schema1 : Schema I1 O1)
    (key2 : string) (get2 : Input -> I2) (schema2 : Schema I2 O2)
    (build : O1 -> O2 -> Output) : Schema Input Output :=
  fun input =>
    match schema1 (get1 input), schema2 (get2 input) with
    | OK a, OK b => OK (build a b)
    | result1, result2 =>
        INVALID (under key1 (issues_of result1) ++ under key2 (issues_of result2))
    end.

(** *** The zod resolver of react-hook-form *)

Module FieldError.
Record FieldError : Type := {
  type : ZodIssueCode;
  message : Text
}.
End FieldError.
Export FieldError(FieldError).

(** The body of the loop of [parseErrorSchema]: an issue is recorded under
    its joined path unless the path already has an entry. *)
Definition record_issue (errors : gmap string FieldError) (issue : ZodIssue)
  : gmap string FieldError :=
  let _path := String.concat "." (Issue.path issue) in
  match errors !! _path with
  | Some _ => errors
  | None => <[ _path := {| FieldError.type := Issue.code issue;
                           FieldError.message := Issue.message issue |} ]> errors
  end.

(** [parseErrorSchema]: one entry per path, the first issue of a path
    wins. *)
Definition parseErrorSchema (issues : list ZodIssue) : gmap string FieldError :=
  List.fold_left record_issue issues ∅.

Record ResolverResult (Data : Type) : Type := {
  values : option Data;
  errors : gmap string FieldError
}.
Arguments values {Data} _.
Arguments errors {Data} _.

Definition zodResolver {Input Data : Type} (schema : Schema Input Data) (input : Input)
  : ResolverResult Data :=
  match schema input with
  | OK data => {| values := Some data; errors := ∅ |}
  | INVALID issues => {| values := None; errors := parseErrorSchema issues |}
  end.

(** *** The form *)

(** The field values react-hook-form holds for the two controlled inputs.
    [useForm] is given no default values, so both start [undefined]. *)
Module Values.
Record FormValues : Type := {
  cancellationDate : FieldValue JsDate;
  reasonForCancellation : FieldValue string
}.
End Values.
Export Values(FormValues).

(** [type CancelOrderFormData = z.infer<typeof cancelOrderSchema>] *)
Record CancelOrderFormData : Type := {
  cancellationDate : JsDate;
  reasonForCancellation : string
}.

(** [cancelOrderSchema], lines 28-41. The refinement reads the clock when
    it runs. *)
Definition cancelOrderSchema (clock : Clock) : Schema FormValues CancelOrderFormData :=
  z_object
    "cancellationDate" Values.cancellationDate
    (z_refine
       (z_date (t "cancellationDateRequired" "Cancellation date is required" []))
       (fun date => Js.geb (getTime date) (getTime (dayjs_startOf_day_toDate clock)))
       (t "dateCannotBeBeforeToday" "Date cannot be before today" []))
    "reasonForCancellation" Values.reasonForCancellation
    (z_string (t "reasonForCancellationRequired" "Reason for cancellation is required" []))
    Build_CancelOrderFormData.

(** Modelled from the spec: the type [Order] of [esm-patient-common-lib],
    "containing at minimum an identifier, a display label, and an
    order-number". *)
Record Order : Type := {
  uuid : string;
  display : option string;
  orderNumber : string
}.

Record Payload : Type := {
  fulfillerStatus : string;
  fulfillerComment : string
}.

Inductive SnackbarKind : Type := success | error.

Record Snackbar : Type := {
  isLowContrast : option bool;
  title : Text;
  kind : SnackbarKind;
  subtitle : option Text
}.

(** The calls the form makes to its collaborators. [cancelOrder] is the
    function of [cancel-order.resource]; the form only sees the promise it
    returns, which is fulfilled on acceptance and rejected on failure. *)
Inductive Call : Type :=
| cancelOrder (order : Order) (payload : Payload)
| closeWorkspace
| mutate
| showSnackbar (snackbar : Snackbar).

(** The reason a [cancelOrder] promise rejects with, when it is an object. *)
Module Rejection.
Record Error : Type := {
  message : option string
}.
End Rejection.

(** How a [cancelOrder] promise settles; a rejection may carry no reason
    ([err] nullish). *)
Inductive Settlement : Type :=
| fulfilled
| rejected (err : option Rejection.Error).

(** The state of a mounted form: the component's own state, the form state
    of react-hook-form, the promises not yet settled, and the calls made so
    far, oldest first. *)
Record State : Type := {
  formValues : FormValues;
  showErrorNotification : bool;
  isSubmitting : bool;
  formErrors : gmap string FieldError;
  (** [handleSubmit] suspended at [await _executeSchema()], with the values
      it captured *)
  validating : option FormValues;
  (** [cancelOrder] promises that have not settled *)
  inFlight : list (Order * Payload);
  calls : list Call
}.

Definition initialState : State :=
  {| formValues := {| Values.cancellationDate := undefined;
                      Values.reasonForCancellation := undefined |};
     showErrorNotification := false;
     isSubmitting := false;
     formErrors := ∅;
     validating := None;
     inFlight := [];
     calls := [] |}.

Definition setFormValues (v : FormValues) (s : State) : State :=
  {| formValues := v; showErrorNotification := showErrorNotification s;
     isSubmitting := isSubmitting s; formErrors := formErrors s;
     validating := validating s; inFlight := inFlight s; calls := calls s |}.

Definition setShowErrorNotification (b : bool) (s : State) : State :=
  {| formValues := formValues s; showErrorNotification := b;
     isSubmitting := isSubmitting s; formErrors := formErrors s;
     validating := validating s; inFlight := inFlight s; calls := calls s |}.

Definition setSubmitting (b : bool) (captured : option FormValues) (s : State) : State :=
  {| formValues := formValues s; showErrorNotification := showErrorNotification s;
     isSubmitting := b; formErrors := formErrors s;
     validating := captured; inFlight := inFlight s; calls := calls s |}.

Definition setFormErrors (e : gmap string FieldError) (s : State) : State :=
  {| formValues := formValues s; showErrorNotification := showErrorNotification s;
     isSubmitting := isSubmitting s; formErrors := e;
     validating := validating s; inFlight := inFlight s; calls := calls s |}.

Definition setInFlight (l : list (Order * Payload)) (s : State) : State :=
  {| formValues := formValues s; showErrorNotification := showErrorNotification s;
     isSubmitting := isSubmitting s; formErrors := formErrors s;
     validating := validating s; inFlight := l; calls := calls s |}.

(** Record a call to a collaborator. *)
Definition emit (c : Call) (s : State) : State :=
  {| formValues := formValues s; showErrorNotification := showErrorNotification s;
     isSubmitting := isSubmitting s; formErrors := formErrors s;
     validating := validating s; inFlight := inFlight s; calls := calls s ++ [c] |}.

Section Form.
Variable order : Order.

(** [onError], lines 54-58. *)
Definition onError (err : gmap string FieldError) (s : State) : State :=
  if bool_decide (is_Some (err !! "oneFieldRequired"))
  then setShowErrorNotification true s
  else s.

(** The first callback of [.then], lines 75-86. *)
Definition onFulfilled (s : State) : State :=
  emit (showSnackbar
          {| isLowContrast := None;
             title := t "orderCancelled" "Order cancelled" [];
             kind := success;
             subtitle :=
               Some (t "successfullyCancelledOrder"
                       "Order {{orderNumber}} has been cancelled successfully"
                       [("orderNumber", orderNumber order)]) |})
    (emit mutate (emit closeWorkspace s)).

(** The second callback of [.then], lines 87-94; [err?.message]. *)
Definition onRejected (err : option Rejection.Error) (s : State) : State :=
  emit (showSnackbar
          {| isLowContrast := Some true;
             title := t "errorCancellingOrder" "Error cancelling order" [];
             kind := error;
             subtitle := Literal <$> (err ≫= Rejection.message) |})
    s.

(** [cancelOrderRequest], lines 64-98. The promise [cancelOrder] returns is
    given its two callbacks and is not returned to the caller. *)
Definition cancelOrderRequest (data : CancelOrderFormData) (s : State) : State :=
  let formData := data in
  let s := setShowErrorNotification false s in
  let payload := {| fulfillerStatus := "DECLINED";
                    fulfillerComment := reasonForCancellation formData |} in
  setInFlight (inFlight s ++ [(order, payload)]) (emit (cancelOrder order payload) s).

(** [handleSubmit(onValid, onInvalid)] of react-hook-form, from the point
    where the resolver it awaited has produced its result: the errors become
    the form's errors; without errors [onValid] receives the parsed values,
    otherwise [onInvalid] receives the errors; [handleSubmit] awaits what
    the callback returns and then resets [isSubmitting]. The two callbacks
    of this form have no [return], so the wait ends as soon as the callback
    is back and a callback is a change of state here. The resolver returns
    values whenever it returns no errors, so the branch without values is
    never taken. *)
Definition handleSubmit
    (resolver : FormValues -> ResolverResult CancelOrderFormData)
    (onValid : CancelOrderFormData -> State -> State)
    (onInvalid : gmap string FieldError -> State -> State)
    (fieldValues : FormValues) (s : State) : State :=
  let result := resolver fieldValues in
  let s := setFormErrors (errors result) s in
  let s :=
    if bool_decide (errors result = ∅)
    then match values result with
         | Some data => onValid data s
         | None => s
         end
    else onInvalid (errors result) s in
  setSubmitting false None s.

(** What the user and the environment do to a mounted form. Changing a
    field stores the new value; the validation that [mode: 'all'] runs on
    each change is left out, only the validation at submission is
    followed. *)
Inductive Event : Type :=
| change_cancellationDate (date : FieldValue JsDate)
| change_reasonForCancellation (text : string)
| close_notification
(** a click on the primary button, [handleSubmit(cancelOrderRequest, onError)] *)
| click_submit
(** the resolver [handleSubmit] awaits completes, at the given clock *)
| resolver_done (clock : Clock)
(** the [i]-th promise in flight settles *)
| settle (i : nat) (outcome : Settlement).

(** One step of the form. [None]: the event cannot happen in this state
    (a disabled button is not clicked, nothing awaits the resolver, no such
    promise). A click sets [isSubmitting] and captures the field values;
    when the resolver is done, [handleSubmit(cancelOrderRequest, onError)]
    goes on with [zodResolver(cancelOrderSchema)] as the form's resolver.
    Neither [cancelOrderRequest] nor [onError] returns a promise, so nothing
    is left to await and [isSubmitting] is reset in the same step. *)
Definition step (s : State) (e : Event) : option State :=
  match e with
  | change_cancellationDate date =>
      Some (setFormValues
              {| Values.cancellationDate := date;
                 Values.reasonForCancellation := Values.reasonForCancellation (formValues s) |}
              s)
  | change_reasonForCancellation text =>
      Some (setFormValues
              {| Values.cancellationDate := Values.cancellationDate (formValues s);
                 Values.reasonForCancellation := defined text |}
              s)
  | close_notification => Some (setShowErrorNotification false s)
  | click_submit =>
      if isSubmitting s then None
      else Some (setSubmitting true (Some (formValues s)) s)
  | resolver_done clock =>
      match validating s with
      | None => None
      | Some fieldValues =>
          Some (handleSubmit (zodResolver (cancelOrderSchema clock))
                  cancelOrderRequest onError fieldValues s)
      end
  | settle i outcome =>
      match inFlight s !! i with
      | None => None
      | Some _ =>
          let s := setInFlight (delete i (inFlight s)) s in
          Some (match outcome with
                | fulfilled => onFulfilled s
                | rejected err => onRejected err s
                end)
      end
  end.

Fixpoint run (events : list Event) (s : State) : option State :=
  match events with
  | [] => Some s
  | e :: events =>
      match step s e with
      | Some s' => run events s'
      | None => None
      end
  end.

(** [disabled={isSubmitting}] on the primary button. *)
Definition submit_disabled (s : State) : bool := isSubmitting s.

End Form.

End OrderCancellationForm.

(** ** Reference definitions

    [retains P l out]: [out] keeps, from left to right, exactly the
    elements of [l] that satisfy [P]. This is the reading of "retain
    exactly the conditions whose clinical status equals the filter value"
    against which [filteredConditions] is compared. *)

Inductive retains {A : Type} (P : A -> Prop) : list A -> list A -> Prop :=
| retains_nil : retains P [] []
| retains_keep x l out : P x -> retains P l out -> retains P (x :: l) (x :: out)
| retains_drop x l out : ~ P x -> retains P l out -> retains P (x :: l) out.

(** The condition's clinical status equals the filter value. *)
Definition selected_by {Rest : Type} (filter : ConditionsOverview.Filter)
    (condition : ConditionsOverview.Condition Rest) : Prop :=
  ConditionsOverview.clinicalStatus condition
  = Some (ConditionsOverview.Filter_string filter).

(** ** Sample data, used to exercise the statements below *)

Module Sample.
Import ConditionsOverview.

(** Code-point order as a stand-in collation. *)
Definition ordinal_compare (a b : string) : Z :=
  match String.compare a b with
  | Lt => -1
  | Eq => 0
  | Gt => 1
  end.

(** A parser that knows two instants. *)
Definition getTime_table (s : option string) : Js.number :=
  match s with
  | Some "2020-01-01T00:00:00.000Z" => Js.Num 1577836800000
  | Some "2021-01-01T00:00:00.000Z" => Js.Num 1609459200000
  | _ => Js.NaN
  end.

Definition format_table (d : Js.number) (o : FormatOptions) : string :=
  match d with
  | Js.Num 1577836800000 => "01-Jan-2020"
  | Js.Num 1609459200000 => "01-Jan-2021"
  | _ => "Invalid Date"
  end.

Definition framework : Framework :=
  {| DateObject := Js.number;
     parseDate := getTime_table;
     formatDate := format_table;
     localeCompare := ordinal_compare;
     Date_getTime := getTime_table |}.

Definition asthma : Condition unit :=
  {| id := "c1"; display := Some "Asthma"; clinicalStatus := Some "Active";
     onsetDateTime := Some "2020-01-01T00:00:00.000Z"; abatementDateTime := None;
     rest := tt |}.

Definition malaria : Condition unit :=
  {| id := "c2"; display := Some "Malaria"; clinicalStatus := Some "Inactive";
     onsetDateTime := Some "2021-01-01T00:00:00.000Z";
     abatementDateTime := Some "2021-02-01T00:00:00.000Z"; rest := tt |}.

(** A condition with neither a display label nor an onset. *)
Definition unlabelled : Condition unit :=
  {| id := "c3"; display := None; clinicalStatus := Some "Active";
     onsetDateTime := None; abatementDateTime := None; rest := tt |}.

Definition chart : list (Condition unit) := [asthma; malaria; unlabelled].

Definition asthma_row : ConditionTableRow unit := @tableRow framework unit asthma.
Definition malaria_row : ConditionTableRow unit := @tableRow framework unit malaria.
Definition unlabelled_row : ConditionTableRow unit := @tableRow framework unit unlabelled.

Import OrderCancellationForm.

Definition order : Order :=
  {| uuid := "8a5e-order"; display := Some "Aspirin 81mg"; orderNumber := "ORD-42" |}.

(** A zone that keeps one offset from UTC, given in minutes. *)
Definition fixed_offset (minutes : Z) : Z -> bool -> Z :=
  fun _ _ => minutes * 60000.

(** 2024-03-10 14:30 local time, in a zone three hours ahead of UTC. *)
Definition clock : Clock := {| now := 1710070200000; LocalTZA := fixed_offset 180 |}.

(** New York around the end of daylight saving time in 2024: four hours
    behind UTC until 2024-11-03 06:00 UTC, five hours behind from then on. A
    local time that occurs twice is read with the offset before the
    change. *)
Definition new_york : Z -> bool -> Z :=
  fun time isUTC =>
    if isUTC
    then if time <? 1730613600000 then -14400000 else -18000000
    else if time <? 1730613600000 - 14400000 then -14400000 else -18000000.

(** 2024-11-03 14:30 in New York, after the change. *)
Definition new_york_afternoon : Clock :=
  {| now := 1730662200000; LocalTZA := new_york |}.

(** 2024-11-04 00:10 in New York. *)
Definition new_york_next_day : Clock :=
  {| now := 1730697000000; LocalTZA := new_york |}.

Definition today : JsDate := Date (Js.Num (startOfDay clock)).
Definition yesterday : JsDate := Date (Js.Num (startOfDay clock - 86400000)).

Definition tomorrow : JsDate := Date (Js.Num (startOfDay clock + 86400000)).

Definition filled : FormValues :=
  {| Values.cancellationDate := defined today;
     Values.reasonForCancellation := defined "duplicate order" |}.

Definition filled_for_tomorrow : FormValues :=
  {| Values.cancellationDate := defined tomorrow;
     Values.reasonForCancellation := defined "duplicate order" |}.

(** The form after the given values were entered and the primary button was
    clicked. *)
Definition submitted (v : FormValues) : State :=
  setSubmitting true (Some v) (setFormValues v initialState).

Definition declined (reason : string) : Payload :=
  {| fulfillerStatus := "DECLINED"; fulfillerComment := reason |}.

End Sample.

(** ** Conditions overview: what the component renders *)

Module ConditionsOverviewRender.
Import ConditionsOverview.

(** [array.length] on an array that may be [undefined]: a [TypeError] when
    it is. *)
Definition length_of {A : Type} (array : option (list A)) : Js.completion nat :=
  match array with
  | Some l => Js.Normal (length l)
  | None => Js.Throw "TypeError"
  end.

(** [ToBoolean(array?.length)]: false for [undefined] and for an empty
    array. *)
Definition truthy_length {A : Type} (array : option (list A)) : bool :=
  match array with
  | Some (_ :: _) => true
  | _ => false
  end.

(** [pageUrl], line 61; the first [$] of the template is escaped and stays
    in the text. *)
Definition pageUrl (patientUuid : string) : string :=
  String.append "${openmrsSpaBase}/patient/"
    (String.append patientUuid "/chart/Conditions").

(** The two hooks between the table rows and the rows on display, as they
    answer in one render: [sortedRows] of
    [useConditionsSorting(headers, tableRows)], a hook of
    [conditions.resource], and [results] of
    [usePagination(sortedRows, conditionPageSize)], a hook of the framework.
    Neither is part of the component; what they return is taken as given. *)
Class Hooks (Rest : Type) : Type := {
  useConditionsSorting :
    list (@ConditionTableHeader Rest) -> option (list (ConditionTableRow Rest))
    -> option (list (ConditionTableRow Rest));
  usePagination :
    option (list (ConditionTableRow Rest)) -> Z -> list (ConditionTableRow Rest)
}.

Section Render.
Context `{Framework} {Rest : Type} `{!Hooks Rest} {FetchError : Type}.

#[local] Abbreviation Condition := (Condition Rest).
#[local] Abbreviation ConditionTableRow := (ConditionTableRow Rest).

(** What [useConditions(patientUuid)] returns, line 66. *)
Record UseConditions : Type := {
  conditions : option (list Condition);
  error : option FetchError;
  isLoading : bool;
  isValidating : bool
}.

(** The element the component returns, lines 136-246, with the data it
    hands to the children that depend on the conditions: for the widget
    card, the [rows] of the data table and, for the pagination, its
    [currentItems], [pageSize], [totalItems] and [dashboardLinkUrl]. *)
Inductive View : Type :=
| DataTableSkeleton
| ErrorState (error : FetchError) (headerTitle : Text)
| WidgetCard (isValidating : bool) (rows : list ConditionTableRow)
    (currentItems : nat) (pageSize : Z) (totalItems : nat) (dashboardLinkUrl : string)
| EmptyState (displayText headerTitle : Text).

(** The body of the component from [useConditions] on, lines 66-246: the
    memoised values and the two hooks come first, then the first matching
    branch returns. [conditionPageSize] comes from the configuration. *)
Definition render (patientUuid : string) (conditionPageSize : Z)
    (data : UseConditions) (filter : Filter) : Js.completion View :=
  let displayText := t "conditions" "Conditions" [] in
  let headerTitle := t "conditions" "Conditions" [] in
  let filteredConditions := filteredConditions filter (conditions data) in
  let tableRows := tableRows filteredConditions in
  let sortedRows := useConditionsSorting headers tableRows in
  let paginatedConditions := usePagination sortedRows conditionPageSize in
  if isLoading data then Js.Normal DataTableSkeleton
  else
    match error data with
    | Some e => Js.Normal (ErrorState e headerTitle)
    | None =>
        if truthy_length (conditions data)
        then match length_of filteredConditions with
             | Js.Normal totalItems =>
                 Js.Normal (WidgetCard (isValidating data) paginatedConditions
                              (length paginatedConditions) conditionPageSize
                              totalItems (pageUrl patientUuid))
             | Js.Throw e => Js.Throw e
             end
        else Js.Normal (EmptyState displayText headerTitle)
    end.


End Render.

End ConditionsOverviewRender.

(** ** Order cancellation form: the workspace as a whole *)

Module OrderCancellationWorkspace.
Import OrderCancellationForm.

(** [minDate] of the date picker, line 116: [dayjs().startOf('day')], read
    when the form is rendered. *)
Definition minDate (clock : Clock) : JsDate := Date (Js.Num (startOfDay clock)).

(** What the user can do in the workspace: act on the form, or click
    "Discard", line 159. *)
Inductive Interaction : Type :=
| on_form (e : Event)
| click_discard.

Definition interact (order : Order) (s : State) (i : Interaction) : option State :=
  match i with
  | on_form e => step order s e
  | click_discard => Some (emit closeWorkspace s)
  end.

Fixpoint session (order : Order) (interactions : list Interaction) (s : State)
  : option State :=
  match interactions with
  | [] => Some s
  | i :: interactions =>
      match interact order s i with
      | Some s' => session order interactions s'
      | None => None
      end
  end.

(** The texts entered in the reason field in the course of a session. *)
Fixpoint entered_reasons (interactions : list Interaction) : list string :=
  match interactions with
  | [] => []
  | on_form (change_reasonForCancellation text) :: interactions =>
      text :: entered_reasons interactions
  | _ :: interactions => entered_reasons interactions
  end.

(** Counting the calls of a kind in the record of calls. *)
Definition count (kind : Call -> bool) (l : list Call) : nat :=
  length (List.filter kind l).

Definition is_cancelOrder (c : Call) : bool :=
  match c with cancelOrder _ _ => true | _ => false end.

Definition is_closeWorkspace (c : Call) : bool :=
  match c with closeWorkspace => true | _ => false end.

Definition is_mutate (c : Call) : bool :=
  match c with mutate => true | _ => false end.

Definition is_showSnackbar (c : Call) : bool :=
  match c with showSnackbar _ => true | _ => false end.

Definition is_success_snackbar (c : Call) : bool :=
  match c with
  | showSnackbar snackbar =>
      match kind snackbar with success => true | error => false end
  | _ => false
  end.

(** A zone whose calendar is orderly: the local date never goes back as
    time passes, the midnight of a later date is a later instant, and the
    midnight of a date is not later than any instant of that date. *)
Definition orderly (clock : Clock) : Prop :=
  (forall t1 t2, t1 <= t2 -> Day (LocalTime clock t1) <= Day (LocalTime clock t2))
  /\ (forall d1 d2, d1 < d2 -> UTC clock (MakeDate d1 0) < UTC clock (MakeDate d2 0))
  /\ (forall t, UTC clock (MakeDate (Day (LocalTime clock t)) 0) <= t).

(** Every request on record was answered by one notification or is still
    in flight; the orders were fetched again once per success notification;
    the workspace was closed at least as often. *)
Definition accounted (s : State) : Prop :=
  count is_cancelOrder (calls s)
  = (length (inFlight s) + count is_showSnackbar (calls s))%nat
  /\ count is_mutate (calls s) = count is_success_snackbar (calls s)
  /\ (count is_mutate (calls s) <= count is_closeWorkspace (calls s))%nat.

(** The reason held by the form, the reason captured by a pending
    submission and the comment of every request on record are among the
    texts [entered]; every request is for [order] and declines it. *)
Definition requests_from (order : Order) (entered : string -> Prop) (s : State) : Prop :=
  (forall text,
     Values.reasonForCancellation (formValues s) = defined text -> entered text)
  /\ (forall v text,
        validating s = Some v -> Values.reasonForCancellation v = defined text ->
        entered text)
  /\ (forall o p,
        cancelOrder o p ∈ calls s ->
        o = order /\ fulfillerStatus p = "DECLINED" /\ entered (fulfillerComment p)).

End OrderCancellationWorkspace.

(** ** More sample data *)

Module Sample2.
Import ConditionsOverview.

(** A chart on which the [Active] filter leaves nothing. *)
Definition resolved_chart : list (Condition unit) := [Sample.malaria].

(** Hooks that leave the order alone and show the first page. *)
Definition hooks : ConditionsOverviewRender.Hooks unit :=
  {| ConditionsOverviewRender.useConditionsSorting := fun _ rows => rows;
     ConditionsOverviewRender.usePagination :=
       fun rows pageSize => take (Z.to_nat pageSize) (default [] rows) |}.

Definition fetched (cs : list (Condition unit))
  : @ConditionsOverviewRender.UseConditions unit Empty_set :=
  {| ConditionsOverviewRender.conditions := Some cs;
     ConditionsOverviewRender.error := None;
     ConditionsOverviewRender.isLoading := false;
     ConditionsOverviewRender.isValidating := false |}.

Import OrderCancellationForm.

(** A form dated at the given instant, with a reason. *)
Definition dated (ms : Z) : FormValues :=
  {| Values.cancellationDate := defined (Date (Js.Num ms));
     Values.reasonForCancellation := defined "duplicate order" |}.

End Sample2.

(** * Properties *)

(** ** JavaScript coercions *)

Lemma truthy_true_iff (s : option string) :
  Js.truthy s = true <-> exists x, s = Some x /\ x <> "".
Proof.
  destruct s as [x|]; simpl.
  - rewrite negb_true_iff. split.
    + intros E. exists x. split; [reflexivity|].
      intros ->. discriminate.
    + intros (y & [= <-] & Hne).
      destruct (String.eqb_spec x ""); congruence.
  - split; [discriminate|]. intros (x & [=] & _).
Qed.

Lemma truthy_false_iff (s : option string) :
  Js.truthy s = false <-> s = None \/ s = Some "".
Proof.
  destruct s as [x|]; simpl.
  - rewrite negb_false_iff, String.eqb_eq. split.
    + intros ->. now right.
    + intros [[=]|[= ->]]. reflexivity.
  - split; [now left | reflexivity].
Qed.

Lemma strict_eq_true_iff (a : option string) (b : string) :
  Js.strict_eq a b = true <-> a = Some b.
Proof.
  destruct a as [x|]; simpl.
  - rewrite String.eqb_eq. split; congruence.
  - split; discriminate.
Qed.

(** ** Rounding to a double *)

Lemma round_to_double_exact (z : Z) :
  Z.abs z <= 2 ^ 53 -> Js.round_to_double z = z.
Proof.
  intros Hz. unfold Js.round_to_double.
  destruct (Z.ltb_spec (Z.abs z) (2 ^ 53)) as [Hlt|Hge]; [reflexivity|].
  assert (Hcases : z = 2 ^ 53 \/ z = - 2 ^ 53).
  { change (2 ^ 53) with 9007199254740992 in *. lia. }
  destruct Hcases as [-> | ->]; vm_compute; reflexivity.
Qed.

Lemma round_to_double_opp (z : Z) :
  Js.round_to_double (- z) = - Js.round_to_double z.
Proof.
  unfold Js.round_to_double. rewrite Z.abs_opp, Z.sgn_opp.
  destruct (Z.abs z <? 2 ^ 53); [reflexivity|]. cbv zeta. ring.
Qed.



(** Up to 2^54 in magnitude, rounding moves an integer by at most one. *)
Lemma round_to_double_near (z : Z) :
  Z.abs z < 2 ^ 54 -> Z.abs (Js.round_to_double z - z) <= 1.
Proof.
  intros Hz. unfold Js.round_to_double.
  destruct (Z.ltb_spec (Z.abs z) (2 ^ 53)) as [Hlt|Hge]; [lia|].
  assert (Hlog : Z.log2 (Z.abs z) = 53).
  { apply Z.log2_unique; [lia|]. split; [exact Hge | exact Hz]. }
  rewrite Hlog. change (2 ^ (53 - 52)) with 2. cbv zeta.
  change (2 ^ 53) with 9007199254740992 in Hge.
  pose proof (Z.div_mod (Z.abs z) 2 ltac:(lia)) as Hdm.
  pose proof (Z.mod_pos_bound (Z.abs z) 2 ltac:(lia)) as Hr.
  set (q := Z.abs z / 2) in *. set (r := Z.abs z mod 2) in *.
  destruct (Z.ltb_spec (2 * r) 2); [|destruct (Z.ltb_spec 2 (2 * r));
                                      [|destruct (Z.even q)]]; lia.
Qed.

(** ** Retaining the elements that satisfy a predicate *)

Section Retains.
Context {A : Type} (P : A -> Prop).

Lemma filter_retains (f : A -> bool) (l : list A) :
  (forall x, f x = true <-> P x) -> retains P l (List.filter f l).
Proof.
  intros Hf. induction l as [|x l IH]; simpl.
  - constructor.
  - destruct (f x) eqn:E.
    + apply retains_keep; [now apply Hf | exact IH].
    + apply retains_drop; [| exact IH].
      intros HP. apply Hf in HP. congruence.
Qed.

Lemma retains_functional (l out1 out2 : list A) :
  retains P l out1 -> retains P l out2 -> out1 = out2.
Proof.
  intros H1. revert out2.
  induction H1 as [|x l out HP _ IH|x l out HP _ IH]; intros out2 H2.
  - now inversion H2.
  - inversion H2; subst; [f_equal; now apply IH | contradiction].
  - inversion H2; subst; [contradiction | now apply IH].
Qed.

Lemma retains_sublist (l out : list A) : retains P l out -> out `sublist_of` l.
Proof.
  induction 1.
  - constructor.
  - now apply sublist_skip.
  - now apply sublist_cons.
Qed.

Lemma retains_elem_of (l out : list A) :
  retains P l out -> forall x, x ∈ out <-> x ∈ l /\ P x.
Proof.
  induction 1 as [|y l out HP _ IH|y l out HP _ IH]; intros x.
  - split; [intros Hx | intros [Hx _]]; inversion Hx.
  - rewrite !elem_of_cons, IH. split.
    + intros [->|[? ?]]; auto.
    + intros [[->|?] ?]; auto.
  - rewrite elem_of_cons, IH. split.
    + intros [? ?]; auto.
    + intros [[->|?] ?]; [contradiction | auto].
Qed.

Lemma retains_all (l : list A) : (forall x, x ∈ l -> P x) -> retains P l l.
Proof.
  induction l as [|x l IH]; intros Hall.
  - constructor.
  - apply retains_keep.
    + apply Hall. left.
    + apply IH. intros y Hy. apply Hall. now right.
Qed.

End Retains.

(** ** Conditions overview *)

Section ConditionsOverviewProperties.
Import ConditionsOverview.
Context `{Framework} {Rest : Type}.

#[local] Abbreviation Condition := (Condition Rest).
#[local] Abbreviation ConditionTableRow := (ConditionTableRow Rest).

Lemma filteredConditions_All (conditions : option (list Condition)) :
  filteredConditions All conditions = conditions.
Proof. reflexivity. Qed.

Lemma filteredConditions_status (filter : Filter) (conditions : list Condition) :
  filter <> All ->
  exists out,
    filteredConditions filter (Some conditions) = Some out
    /\ retains (selected_by filter) conditions out.
Proof.
  intros Hne.
  exists (List.filter
            (fun c => Js.strict_eq (clinicalStatus c) (Filter_string filter)) conditions).
  split.
  - destruct filter; [contradiction | reflexivity | reflexivity].
  - apply filter_retains. intros c. apply strict_eq_true_iff.
Qed.

(** C2: with the filter on [Active] or [Inactive] the filtered output keeps,
    in their original relative order, exactly the conditions whose clinical
    status equals the filter value; with the filter on [All] the output is
    the input sequence itself. *)
Theorem filteredConditions_spec (conditions : list Condition) :
  filteredConditions All (Some conditions) = Some conditions
  /\ (exists out,
        filteredConditions Active (Some conditions) = Some out
        /\ retains (selected_by Active) conditions out
        /\ out `sublist_of` conditions
        /\ forall c, c ∈ out <-> c ∈ conditions /\ clinicalStatus c = Some "Active")
  /\ (exists out,
        filteredConditions Inactive (Some conditions) = Some out
        /\ retains (selected_by Inactive) conditions out
        /\ out `sublist_of` conditions
        /\ forall c, c ∈ out <-> c ∈ conditions /\ clinicalStatus c = Some "Inactive").
Proof.
  split; [apply filteredConditions_All|].
  split.
  - destruct (filteredConditions_status Active conditions) as (out & E & R); [discriminate|].
    exists out. split; [exact E|]. split; [exact R|].
    split; [eapply retains_sublist, R|].
    intros c. apply (retains_elem_of _ _ _ R).
  - destruct (filteredConditions_status Inactive conditions) as (out & E & R); [discriminate|].
    exists out. split; [exact E|]. split; [exact R|].
    split; [eapply retains_sublist, R|].
    intros c. apply (retains_elem_of _ _ _ R).
Qed.

(** The sample chart under the three filters. *)
Example filteredConditions_sample :
  @filteredConditions unit Active (Some Sample.chart)
  = Some [Sample.asthma; Sample.unlabelled]
  /\ @filteredConditions unit Inactive (Some Sample.chart) = Some [Sample.malaria]
  /\ @filteredConditions unit All (Some Sample.chart) = Some Sample.chart
  /\ @filteredConditions unit Active None = None.
Proof. repeat split. Qed.

(** C5: the onset-date comparator returns the difference of the two onset
    instants when both rows have an onset timestamp, and zero as soon as one
    of the rows lacks it (the field is [undefined] or empty). The difference
    is the one JavaScript computes on numbers: the double nearest to the
    exact difference, which is the exact difference up to 2^53 in magnitude
    and within one millisecond of it for any two time values. *)
Theorem onsetDateTimeRender_sortFunc_spec (valueA valueB : ConditionTableRow) :
  (Js.truthy (Row.onsetDateTime valueA) = true ->
   Js.truthy (Row.onsetDateTime valueB) = true ->
   onsetDateTimeRender_sortFunc valueA valueB
   = Js.Normal (Js.Number (Js.sub (Date_getTime (Row.onsetDateTime valueA))
                                  (Date_getTime (Row.onsetDateTime valueB))))
   /\ forall ta tb,
        Date_getTime (Row.onsetDateTime valueA) = Js.Num ta ->
        Date_getTime (Row.onsetDateTime valueB) = Js.Num tb ->
        onsetDateTimeRender_sortFunc valueA valueB
        = Js.Normal (Js.Number (Js.Num (Js.round_to_double (ta - tb))))
        /\ (Z.abs (ta - tb) <= 2 ^ 53 ->
            onsetDateTimeRender_sortFunc valueA valueB
            = Js.Normal (Js.Number (Js.Num (ta - tb))))
        /\ (Z.abs ta <= 8640000000000000 -> Z.abs tb <= 8640000000000000 ->
            Z.abs (Js.round_to_double (ta - tb) - (ta - tb)) <= 1))
  /\ (Js.truthy (Row.onsetDateTime valueA) = false
      \/ Js.truthy (Row.onsetDateTime valueB) = false ->
      onsetDateTimeRender_sortFunc valueA valueB = Js.Normal (Js.Number (Js.Num 0)))
  /\ (Row.onsetDateTime valueA = None \/ Row.onsetDateTime valueB = None ->
      onsetDateTimeRender_sortFunc valueA valueB = Js.Normal (Js.Number (Js.Num 0))).
Proof.
  assert (Hzero : Js.truthy (Row.onsetDateTime valueA) = false
                  \/ Js.truthy (Row.onsetDateTime valueB) = false ->
                  onsetDateTimeRender_sortFunc valueA valueB
                  = Js.Normal (Js.Number (Js.Num 0))).
  { unfold onsetDateTimeRender_sortFunc. intros [-> | ->]; [reflexivity|].
    now rewrite andb_false_r. }
  split; [|split; [exact Hzero|]].
  - unfold onsetDateTimeRender_sortFunc. intros -> ->. cbn [andb].
    split; [reflexivity|].
    intros ta tb -> ->. cbn [Js.sub]. split; [reflexivity|]. split.
    + intros Hsmall. now rewrite round_to_double_exact.
    + intros Ha Hb. apply round_to_double_near.
      change (2 ^ 54) with 18014398509481984. lia.
  - intros [E|E]; apply Hzero; [left|right];
      apply truthy_false_iff; now left.
Qed.

(** The two time values farthest apart: their exact difference is odd and
    above 2^53, and the subtraction returns the even neighbour. *)
Example sub_extreme_time_values :
  Js.sub (Js.Num 8640000000000000) (Js.Num (-8639999999999999))
  = Js.Num 17280000000000000.
Proof. vm_compute. reflexivity. Qed.

(** What the condition-name comparator does, lines 90-95: it never throws;
    with both display labels present it returns the number [localeCompare]
    gives for them; with only the second label missing it compares the
    first label with the text "undefined"; with the first label missing
    the optional call short-circuits and the result is [undefined], not a
    number. *)
Lemma display_sortFunc_spec (valueA valueB : ConditionTableRow) :
  (exists v, display_sortFunc valueA valueB = Js.Normal v)
  /\ (forall a b,
        Row.display valueA = Some a -> Row.display valueB = Some b ->
        display_sortFunc valueA valueB
        = Js.Normal (Js.Number (Js.Num (localeCompare a b))))
  /\ (Row.display valueA = None ->
      display_sortFunc valueA valueB = Js.Normal Js.Undefined)
  /\ (forall a,
        Row.display valueA = Some a -> Row.display valueB = None ->
        display_sortFunc valueA valueB
        = Js.Normal (Js.Number (Js.Num (localeCompare a "undefined")))).
Proof.
  unfold display_sortFunc. split; [|split; [|split]].
  - destruct (Row.display valueA); simpl; eauto.
  - intros a b -> ->. reflexivity.
  - intros ->. reflexivity.
  - intros a -> ->. reflexivity.
Qed.

Lemma tableRows_Some (conditions : list Condition) :
  tableRows (Some conditions) = Some (List.map tableRow conditions).
Proof. reflexivity. Qed.

(** C8: the row projection yields one row per retained condition, in the
    same order; the row carries every field of its condition, an onset
    string that is the formatted onset date when the onset timestamp is
    present and ["--"] when it is not, and the clinical status as its
    status. *)
Theorem tableRows_spec (conditions : list Condition) (i : nat) (c : Condition) :
  conditions !! i = Some c ->
  exists rows row,
    tableRows (Some conditions) = Some rows
    /\ length rows = length conditions
    /\ rows !! i = Some row
    /\ (Row.id row = id c
        /\ Row.display row = display c
        /\ Row.clinicalStatus row = clinicalStatus c
        /\ Row.onsetDateTime row = onsetDateTime c
        /\ Row.abatementDateTime row = abatementDateTime c
        /\ Row.rest row = rest c)
    /\ Row.onsetDateTimeRender row
       = (if Js.truthy (onsetDateTime c)
          then formatDate (parseDate (onsetDateTime c))
                 {| mode := "wide"; time := "for today" |}
          else "--")
    /\ (forall onset,
          onsetDateTime c = Some onset -> onset <> "" ->
          Row.onsetDateTimeRender row
          = formatDate (parseDate (Some onset)) {| mode := "wide"; time := "for today" |})
    /\ (onsetDateTime c = None -> Row.onsetDateTimeRender row = "--")
    /\ Row.status row = clinicalStatus c.
Proof.
  intros Hi.
  exists (List.map tableRow conditions), (tableRow c).
  split; [apply tableRows_Some|].
  split; [apply length_map|].
  split.
  - change (List.map tableRow conditions) with (tableRow <$> conditions).
    now rewrite list_lookup_fmap, Hi.
  - split; [repeat split|]. split; [reflexivity|].
    split; [|split; [|reflexivity]].
    + intros onset E Hne. simpl. rewrite E.
      assert (Ht : Js.truthy (Some onset) = true)
        by (apply truthy_true_iff; eauto).
      now rewrite Ht.
    + intros E. simpl. now rewrite E.
Qed.

End ConditionsOverviewProperties.

(** The comparator on two rows with an onset, 2020-01-01 against
    2021-01-01, and on a row without one. *)
Lemma onsetDateTimeRender_sortFunc_sample :
  (Js.truthy (ConditionsOverview.Row.onsetDateTime Sample.asthma_row) = true
   /\ Js.truthy (ConditionsOverview.Row.onsetDateTime Sample.malaria_row) = true
   /\ @ConditionsOverview.onsetDateTimeRender_sortFunc Sample.framework unit
        Sample.asthma_row Sample.malaria_row
      = Js.Normal (Js.Number (Js.Num (1577836800000 - 1609459200000))))
  /\ (Js.truthy (ConditionsOverview.Row.onsetDateTime Sample.unlabelled_row) = false
      /\ @ConditionsOverview.onsetDateTimeRender_sortFunc Sample.framework unit
           Sample.asthma_row Sample.unlabelled_row
         = Js.Normal (Js.Number (Js.Num 0))).
Proof.
  split.
  - split; [reflexivity|]. split; [reflexivity|].
    refine (proj1 (proj2 (proj2 (proj1 (onsetDateTimeRender_sortFunc_spec
                                          (H := Sample.framework)
                                          Sample.asthma_row Sample.malaria_row)
                                   _ _)
                            1577836800000 1609459200000 _ _)) _);
      first [reflexivity | vm_compute; discriminate].
  - split; [reflexivity|].
    apply (proj1 (proj2 (onsetDateTimeRender_sortFunc_spec
                           (H := Sample.framework) Sample.asthma_row Sample.unlabelled_row))).
    right. reflexivity.
Defined.

(** C6: the condition-name comparator on a row without a display label.
    The claim asks for a number on every pair and for equality when a label
    is missing. With the unlabelled row as first argument the comparator
    returns [undefined], no number at all; with the unlabelled row as
    second argument "Asthma" is compared with the text "undefined" and the
    result is -1, not 0. *)
Lemma display_sortFunc_missing_label :
  ConditionsOverview.Row.display Sample.unlabelled_row = None
  /\ @ConditionsOverview.display_sortFunc Sample.framework unit
       Sample.unlabelled_row Sample.asthma_row
     = Js.Normal Js.Undefined
  /\ (~ exists z, @ConditionsOverview.display_sortFunc Sample.framework unit
                    Sample.unlabelled_row Sample.asthma_row
                  = Js.Normal (Js.Number (Js.Num z)))
  /\ @ConditionsOverview.display_sortFunc Sample.framework unit
       Sample.asthma_row Sample.unlabelled_row
     = Js.Normal (Js.Number (Js.Num (-1))).
Proof.
  split; [reflexivity|]. split; [reflexivity|]. split; [|reflexivity].
  intros [z Hz]. discriminate Hz.
Qed.

Lemma display_sortFunc_sample :
  ConditionsOverview.Row.display Sample.malaria_row = Some "Malaria"
  /\ ConditionsOverview.Row.display Sample.asthma_row = Some "Asthma"
  /\ @ConditionsOverview.display_sortFunc Sample.framework unit
       Sample.malaria_row Sample.asthma_row
     = Js.Normal (Js.Number (Js.Num 1)).
Proof.
  split; [reflexivity|]. split; [reflexivity|].
  apply (proj1 (proj2 (display_sortFunc_spec (H := Sample.framework)
                         Sample.malaria_row Sample.asthma_row))
           "Malaria" "Asthma"); reflexivity.
Defined.

Lemma tableRows_sample :
  Sample.chart !! 2%nat = Some Sample.unlabelled
  /\ exists rows row,
       @ConditionsOverview.tableRows Sample.framework unit (Some Sample.chart) = Some rows
       /\ length rows = 3%nat
       /\ rows !! 2%nat = Some row
       /\ ConditionsOverview.Row.onsetDateTimeRender row = "--"
       /\ ConditionsOverview.Row.status row = Some "Active".
Proof.
  split; [reflexivity|].
  destruct (tableRows_spec (H := Sample.framework) Sample.chart 2 Sample.unlabelled)
    as (rows & row & E & Hlen & Hrow & _ & _ & _ & Honset & Hstatus); [reflexivity|].
  exists rows, row. repeat split; try assumption. now apply Honset.
Defined.

(** ** Order cancellation form *)

Section OrderCancellationFormProperties.
Import OrderCancellationForm.

(** Case analysis on the two field values of a form, with the schema
    unfolded down to the comparison against the start of the day. *)
Ltac form_cases v :=
  destruct v as [[| |[[?ms|]]] [| |?text]];
  unfold zodResolver, cancelOrderSchema, z_object, z_refine, z_date, z_string;
  cbn -[startOfDay Z.leb parseErrorSchema lookup].

(** *** The clock *)

(** When the offset in force at the start of the day is the one the host
    uses to read that day's local midnight (it is, unless the zone skips or
    repeats midnight), the local time at the start of the day is
    00:00:00.000 of the local date of now. *)
Lemma startOfDay_local_midnight (clock : Clock) :
  LocalTZA clock (startOfDay clock) true
  = LocalTZA clock (MakeDate (Day (LocalTime clock (now clock))) 0) false ->
  LocalTime clock (startOfDay clock) = MakeDate (Day (LocalTime clock (now clock))) 0
  /\ Day (LocalTime clock (startOfDay clock)) = Day (LocalTime clock (now clock))
  /\ LocalTime clock (startOfDay clock) mod msPerDay = 0.
Proof.
  intros Hco.
  assert (E : LocalTime clock (startOfDay clock)
              = MakeDate (Day (LocalTime clock (now clock))) 0).
  { unfold LocalTime at 1. rewrite Hco. unfold startOfDay, UTC. lia. }
  split; [exact E|]. rewrite E. unfold MakeDate, Day at 1. rewrite Z.add_0_r.
  split; [apply Z.div_mul | apply Z.mod_mul]; discriminate.
Qed.

(** *** The schema *)

Lemma cancelOrderSchema_OK_intro (clock : Clock) (ms : Z) (text : string) :
  startOfDay clock <= ms ->
  cancelOrderSchema clock
    {| Values.cancellationDate := defined (Date (Js.Num ms));
       Values.reasonForCancellation := defined text |}
  = OK {| cancellationDate := Date (Js.Num ms); reasonForCancellation := text |}.
Proof.
  intros Hms.
  unfold cancelOrderSchema, z_object, z_refine, z_date, z_string.
  cbn -[startOfDay Z.leb].
  apply Z.leb_le in Hms. now rewrite Hms.
Qed.

Lemma cancelOrderSchema_OK_inv (clock : Clock) (v : FormValues) (data : CancelOrderFormData) :
  cancelOrderSchema clock v = OK data ->
  exists ms,
    Values.cancellationDate v = defined (Date (Js.Num ms))
    /\ startOfDay clock <= ms
    /\ Values.reasonForCancellation v = defined (reasonForCancellation data)
    /\ cancellationDate data = Date (Js.Num ms).
Proof.
  form_cases v; try discriminate;
    destruct (Z.leb_spec (startOfDay clock) ms) as [Hle|Hlt]; try discriminate.
  intros [= <-]. exists ms. repeat split; [exact Hle].
Qed.

Lemma zodResolver_values {Input Data : Type} (schema : Schema Input Data)
    (input : Input) (data : Data) :
  values (zodResolver schema input) = Some data <-> schema input = OK data.
Proof.
  unfold zodResolver. destruct (schema input); simpl; split; congruence.
Qed.

Lemma zodResolver_OK {Input Data : Type} (schema : Schema Input Data)
    (input : Input) (data : Data) :
  schema input = OK data ->
  zodResolver schema input = {| values := Some data; errors := ∅ |}.
Proof. unfold zodResolver. now intros ->. Qed.

(** *** The resolver *)

Lemma record_issue_lookup (errors : gmap string FieldError) (issue : ZodIssue) (key : string) :
  is_Some (record_issue errors issue !! key) ->
  is_Some (errors !! key) \/ String.concat "." (Issue.path issue) = key.
Proof.
  unfold record_issue.
  destruct (errors !! String.concat "." (Issue.path issue)) eqn:E; [now left|].
  destruct (decide (String.concat "." (Issue.path issue) = key)) as [|Hne]; [now right|].
  rewrite lookup_insert_ne by exact Hne. now left.
Qed.

Lemma record_issue_non_empty (errors : gmap string FieldError) (issue : ZodIssue) :
  record_issue errors issue <> ∅.
Proof.
  unfold record_issue.
  destruct (errors !! String.concat "." (Issue.path issue)) eqn:E.
  - intros ->. now rewrite lookup_empty in E.
  - apply insert_non_empty.
Qed.

Lemma fold_record_issue_lookup (issues : list ZodIssue) (errors : gmap string FieldError)
    (key : string) :
  is_Some (List.fold_left record_issue issues errors !! key) ->
  is_Some (errors !! key)
  \/ exists issue, issue ∈ issues /\ String.concat "." (Issue.path issue) = key.
Proof.
  revert errors. induction issues as [|issue issues IH]; intros errors; simpl.
  - now left.
  - intros HS. apply IH in HS as [HS|(i & Hi & Hk)].
    + apply record_issue_lookup in HS as [HS|Hk]; [now left|].
      right. exists issue. split; [left | exact Hk].
    + right. exists i. split; [now right | exact Hk].
Qed.

Lemma fold_record_issue_non_empty (issues : list ZodIssue) (errors : gmap string FieldError) :
  errors <> ∅ -> List.fold_left record_issue issues errors <> ∅.
Proof.
  revert errors. induction issues as [|issue issues IH]; intros errors Hne; simpl.
  - exact Hne.
  - apply IH, record_issue_non_empty.
Qed.

(** Every entry of the error map comes from an issue with that path. *)
Lemma parseErrorSchema_lookup (issues : list ZodIssue) (key : string) :
  is_Some (parseErrorSchema issues !! key) ->
  exists issue, issue ∈ issues /\ String.concat "." (Issue.path issue) = key.
Proof.
  intros HS. apply fold_record_issue_lookup in HS as [HS|HS]; [|exact HS].
  rewrite lookup_empty in HS. now destruct HS.
Qed.

Lemma parseErrorSchema_empty_iff (issues : list ZodIssue) :
  parseErrorSchema issues = ∅ <-> issues = [].
Proof.
  split.
  - destruct issues as [|issue issues]; [reflexivity|].
    unfold parseErrorSchema. simpl. intros E. exfalso.
    now apply (fold_record_issue_non_empty issues (record_issue ∅ issue)
                 (record_issue_non_empty ∅ issue)).
  - now intros ->.
Qed.

(** The schema reports at least one issue when it rejects, and every issue
    is filed under one of the two form fields. *)
Lemma cancelOrderSchema_INVALID_inv (clock : Clock) (v : FormValues) (issues : list ZodIssue) :
  cancelOrderSchema clock v = INVALID issues ->
  issues <> []
  /\ forall issue, issue ∈ issues ->
       Issue.path issue = ["cancellationDate"]
       \/ Issue.path issue = ["reasonForCancellation"].
Proof.
  form_cases v; try destruct (Z.leb (startOfDay clock) ms); try discriminate;
    intros [= <-]; (split; [discriminate|]); intros issue Hin;
    repeat (apply elem_of_cons in Hin as [->|Hin]; [simpl; auto|]);
    inversion Hin.
Qed.

(** The form has no errors exactly when the schema accepts the values. *)
Lemma resolver_errors_empty_iff (clock : Clock) (v : FormValues) :
  errors (zodResolver (cancelOrderSchema clock) v) = ∅
  <-> exists data, cancelOrderSchema clock v = OK data.
Proof.
  unfold zodResolver.
  destruct (cancelOrderSchema clock v) as [data|issues] eqn:E; simpl.
  - split; eauto.
  - rewrite parseErrorSchema_empty_iff. split.
    + intros ->. now apply cancelOrderSchema_INVALID_inv in E as [E _].
    + intros [data [=]].
Qed.

(** Errors are filed under the names of the two form fields only. *)
Lemma resolver_errors_keys (clock : Clock) (v : FormValues) (key : string) :
  is_Some (errors (zodResolver (cancelOrderSchema clock) v) !! key) ->
  key = "cancellationDate" \/ key = "reasonForCancellation".
Proof.
  unfold zodResolver.
  destruct (cancelOrderSchema clock v) as [data|issues] eqn:E; simpl.
  - rewrite lookup_empty. now intros [? [=]].
  - intros HS. apply parseErrorSchema_lookup in HS as (issue & Hin & <-).
    apply cancelOrderSchema_INVALID_inv in E as [_ E].
    destruct (E issue Hin) as [-> | ->]; [now left | now right].
Qed.

(** No error is ever filed under [oneFieldRequired], the key [onError]
    looks for. *)
Lemma resolver_errors_oneFieldRequired (clock : Clock) (v : FormValues) :
  errors (zodResolver (cancelOrderSchema clock) v) !! "oneFieldRequired" = None.
Proof.
  apply eq_None_not_Some. intros HS.
  apply resolver_errors_keys in HS as [[=]|[=]].
Qed.

(** The entry of the error map for the date field, by the value of the
    field. *)
Lemma resolver_cancellationDate_error (clock : Clock)
    (date : FieldValue JsDate) (reason : FieldValue string) :
  errors (zodResolver (cancelOrderSchema clock)
            {| Values.cancellationDate := date; Values.reasonForCancellation := reason |})
    !! "cancellationDate"
  = match date with
    | undefined =>
        Some {| FieldError.type := invalid_type;
                FieldError.message :=
                  t "cancellationDateRequired" "Cancellation date is required" [] |}
    | null =>
        Some {| FieldError.type := invalid_type;
                FieldError.message := Literal "Expected date, received null" |}
    | defined (Date Js.NaN) =>
        Some {| FieldError.type := invalid_date;
                FieldError.message := Literal "Invalid date" |}
    | defined (Date (Js.Num ms)) =>
        if Z.leb (startOfDay clock) ms then None
        else Some {| FieldError.type := custom;
                     FieldError.message :=
                       t "dateCannotBeBeforeToday" "Date cannot be before today" [] |}
    end.
Proof.
  destruct date as [| |[[ms|]]], reason as [| |text];
    unfold zodResolver, cancelOrderSchema, z_object, z_refine, z_date, z_string;
    cbn -[startOfDay Z.leb parseErrorSchema lookup];
    try destruct (Z.leb (startOfDay clock) ms);
    vm_compute; reflexivity.
Qed.

(** The entry of the error map for the reason field, by the value of the
    field. *)
Lemma resolver_reasonForCancellation_error (clock : Clock)
    (date : FieldValue JsDate) (reason : FieldValue string) :
  errors (zodResolver (cancelOrderSchema clock)
            {| Values.cancellationDate := date; Values.reasonForCancellation := reason |})
    !! "reasonForCancellation"
  = match reason with
    | undefined =>
        Some {| FieldError.type := invalid_type;
                FieldError.message :=
                  t "reasonForCancellationRequired" "Reason for cancellation is required" [] |}
    | null =>
        Some {| FieldError.type := invalid_type;
                FieldError.message := Literal "Expected string, received null" |}
    | defined _ => None
    end.
Proof.
  destruct date as [| |[[ms|]]], reason as [| |text];
    unfold zodResolver, cancelOrderSchema, z_object, z_refine, z_date, z_string;
    cbn -[startOfDay Z.leb parseErrorSchema lookup];
    try destruct (Z.leb (startOfDay clock) ms);
    vm_compute; reflexivity.
Qed.

(** C3: a missing cancellation date is rejected as required; a date is
    accepted if and only if it is not earlier than the start of the current
    calendar day, so that a date before it is rejected and the start of the
    day itself is accepted. The start of the day is the instant of local
    midnight of the local date of now: unless the zone skips or repeats
    midnight, the local time at that instant is 00:00:00.000 of today. The
    outcome for the date field does not depend on the reason field, and
    with a reason entered the form as a whole is accepted under the same
    condition. *)
Theorem cancellationDate_validation (clock : Clock) (reason : FieldValue string) :
  let error_of date :=
    errors (zodResolver (cancelOrderSchema clock)
              {| Values.cancellationDate := date; Values.reasonForCancellation := reason |})
      !! "cancellationDate" in
  let today := Day (LocalTime clock (now clock)) in
  let boundary := UTC clock (MakeDate today 0) in
  error_of undefined
  = Some {| FieldError.type := invalid_type;
            FieldError.message :=
              t "cancellationDateRequired" "Cancellation date is required" [] |}
  /\ (forall ms, error_of (defined (Date (Js.Num ms))) = None <-> boundary <= ms)
  /\ (forall ms,
        error_of (defined (Date (Js.Num ms)))
        = Some {| FieldError.type := custom;
                  FieldError.message :=
                    t "dateCannotBeBeforeToday" "Date cannot be before today" [] |}
        <-> ms < boundary)
  /\ error_of (defined (Date (Js.Num boundary))) = None
  /\ dayjs_startOf_day_toDate clock = Date (Js.Num boundary)
  /\ (forall date,
        error_of date = None
        <-> exists ms, date = defined (Date (Js.Num ms)) /\ boundary <= ms)
  /\ (forall ms text,
        (exists data,
           cancelOrderSchema clock
             {| Values.cancellationDate := defined (Date (Js.Num ms));
                Values.reasonForCancellation := defined text |} = OK data)
        <-> boundary <= ms)
  /\ (LocalTZA clock boundary true = LocalTZA clock (MakeDate today 0) false ->
      LocalTime clock boundary = MakeDate today 0
      /\ Day (LocalTime clock boundary) = today
      /\ LocalTime clock boundary mod msPerDay = 0).
Proof.
  intros error_of today boundary. unfold error_of.
  assert (Hb : boundary = startOfDay clock) by reflexivity.
  clearbody boundary. subst boundary today.
  split; [apply resolver_cancellationDate_error|].
  split; [|split; [|split; [|split; [|split; [|split]]]]].
  - intros ms. rewrite resolver_cancellationDate_error.
    destruct (Z.leb_spec (startOfDay clock) ms); split; try discriminate; try lia; auto.
  - intros ms. rewrite resolver_cancellationDate_error.
    destruct (Z.leb_spec (startOfDay clock) ms); split; try discriminate; try lia; auto.
  - rewrite resolver_cancellationDate_error. now rewrite Z.leb_refl.
  - reflexivity.
  - intros date. rewrite resolver_cancellationDate_error.
    destruct date as [| |[[ms|]]]; try (split; [discriminate | now intros (? & [=] & _)]).
    destruct (Z.leb_spec (startOfDay clock) ms) as [Hle|Hlt]; split.
    + intros _. now exists ms.
    + reflexivity.
    + discriminate.
    + intros (ms' & [= <-] & Hle). lia.
  - intros ms text. split.
    + intros [data E]. apply cancelOrderSchema_OK_inv in E as (ms' & [= <-] & Hle & _).
      exact Hle.
    + intros Hle. eexists. now apply cancelOrderSchema_OK_intro.
  - apply startOfDay_local_midnight.
Qed.

(** What holds of the reason field: a missing reason is rejected as
    required, and every string is accepted. *)
Lemma reasonForCancellation_validation (clock : Clock) (date : FieldValue JsDate) :
  let error_of reason :=
    errors (zodResolver (cancelOrderSchema clock)
              {| Values.cancellationDate := date; Values.reasonForCancellation := reason |})
      !! "reasonForCancellation" in
  error_of undefined
  = Some {| FieldError.type := invalid_type;
            FieldError.message :=
              t "reasonForCancellationRequired" "Reason for cancellation is required" [] |}
  /\ forall text, error_of (defined text) = None.
Proof.
  intros error_of. unfold error_of. split.
  - apply resolver_reasonForCancellation_error.
  - intros text. apply resolver_reasonForCancellation_error.
Qed.

(** *** Submission *)

Section Submission.
Context (order : Order).

(** When the schema accepts, [handleSubmit] runs [cancelOrderRequest]. *)
Lemma step_resolver_done_valid (s : State) (clock : Clock) (fieldValues : FormValues)
    (data : CancelOrderFormData) :
  validating s = Some fieldValues ->
  cancelOrderSchema clock fieldValues = OK data ->
  step order s (resolver_done clock)
  = Some (setSubmitting false None (cancelOrderRequest order data (setFormErrors ∅ s))).
Proof.
  intros Hv E. unfold step, handleSubmit. rewrite Hv, (zodResolver_OK _ _ _ E).
  cbn [values errors]. now rewrite bool_decide_eq_true_2.
Qed.

(** When the schema rejects, [handleSubmit] runs [onError], which finds no
    [oneFieldRequired] entry and changes nothing. *)
Lemma step_resolver_done_invalid (s : State) (clock : Clock) (fieldValues : FormValues)
    (issues : list ZodIssue) :
  validating s = Some fieldValues ->
  cancelOrderSchema clock fieldValues = INVALID issues ->
  step order s (resolver_done clock)
  = Some (setSubmitting false None
            (setFormErrors (errors (zodResolver (cancelOrderSchema clock) fieldValues)) s)).
Proof.
  intros Hv E. unfold step, handleSubmit. rewrite Hv. cbv zeta.
  rewrite bool_decide_eq_false_2.
  - unfold onError. now rewrite resolver_errors_oneFieldRequired.
  - rewrite resolver_errors_empty_iff. intros [data Hd]. congruence.
Qed.

(** C1: when validation passes, the submission issues exactly one
    [cancelOrder] call, with the payload made of the fixed status
    [DECLINED] and the entered reason; nothing else is called before the
    promise settles. When it is fulfilled the form calls [closeWorkspace],
    [mutate] and [showSnackbar] with a success notification that carries the
    order number, each once. When it is rejected the form only calls
    [showSnackbar], with an error notification whose subtitle is the message
    of the rejection. *)
Theorem cancelOrderRequest_spec (s : State) (clock : Clock) (fieldValues : FormValues)
    (data : CancelOrderFormData) :
  validating s = Some fieldValues ->
  cancelOrderSchema clock fieldValues = OK data ->
  let payload := {| fulfillerStatus := "DECLINED";
                    fulfillerComment := reasonForCancellation data |} in
  Values.reasonForCancellation fieldValues = defined (fulfillerComment payload)
  /\ exists s1,
       step order s (resolver_done clock) = Some s1
       /\ calls s1 = calls s ++ [cancelOrder order payload]
       /\ inFlight s1 = inFlight s ++ [(order, payload)]
       /\ (exists s2,
             step order s1 (settle (length (inFlight s)) fulfilled) = Some s2
             /\ calls s2
                = calls s1
                  ++ [ closeWorkspace; mutate;
                       showSnackbar
                         {| isLowContrast := None;
                            title := t "orderCancelled" "Order cancelled" [];
                            kind := success;
                            subtitle :=
                              Some (t "successfullyCancelledOrder"
                                      "Order {{orderNumber}} has been cancelled successfully"
                                      [("orderNumber", orderNumber order)]) |} ]
             /\ inFlight s2 = inFlight s)
       /\ (forall err, exists s3,
             step order s1 (settle (length (inFlight s)) (rejected err)) = Some s3
             /\ calls s3
                = calls s1
                  ++ [ showSnackbar
                         {| isLowContrast := Some true;
                            title := t "errorCancellingOrder" "Error cancelling order" [];
                            kind := error;
                            subtitle := Literal <$> (err ≫= Rejection.message) |} ]
             /\ inFlight s3 = inFlight s)
       /\ (forall text,
             Literal <$> (Some {| Rejection.message := Some text |} ≫= Rejection.message)
             = Some (Literal text)).
Proof.
  intros Hv E payload.
  destruct (cancelOrderSchema_OK_inv _ _ _ E) as (ms & _ & _ & Hreason & _).
  split; [exact Hreason|].
  eexists. split; [exact (step_resolver_done_valid _ _ _ _ Hv E)|].
  split; [reflexivity|]. split; [reflexivity|].
  assert (Hlookup : (inFlight s ++ [(order, payload)]) !! length (inFlight s)
                    = Some (order, payload)) by apply list_lookup_middle, eq_refl.
  assert (Hdelete : delete (length (inFlight s)) (inFlight s ++ [(order, payload)])
                    = inFlight s).
  { rewrite delete_middle. apply app_nil_r. }
  split; [|split].
  - eexists. split.
    + unfold step.
      cbn [inFlight setSubmitting cancelOrderRequest setInFlight emit
             setShowErrorNotification setFormErrors].
      fold payload. rewrite Hlookup. reflexivity.
    + cbn [calls inFlight onFulfilled emit setInFlight setSubmitting cancelOrderRequest
             setShowErrorNotification setFormErrors].
      fold payload. rewrite Hdelete, <- !app_assoc. split; reflexivity.
  - intros err. eexists. split.
    + unfold step.
      cbn [inFlight setSubmitting cancelOrderRequest setInFlight emit
             setShowErrorNotification setFormErrors].
      fold payload. rewrite Hlookup. reflexivity.
    + cbn [calls inFlight onRejected emit setInFlight setSubmitting cancelOrderRequest
             setShowErrorNotification setFormErrors].
      fold payload. rewrite Hdelete. split; reflexivity.
  - reflexivity.
Qed.

(** The request depends on the validated data through the reason only. *)
Lemma cancelOrderRequest_ignores_date (s : State) (data1 data2 : CancelOrderFormData) :
  reasonForCancellation data1 = reasonForCancellation data2 ->
  cancelOrderRequest order data1 s = cancelOrderRequest order data2 s.
Proof. unfold cancelOrderRequest. now intros ->. Qed.

(** C10: two validated submissions that agree on the reason issue the same
    [cancelOrder] call, whatever their cancellation dates and whenever they
    are validated: the call receives the order and a payload made of
    [DECLINED] and the reason. *)
Theorem cancelOrder_call_independent_of_date
    (s1 s2 : State) (clock1 clock2 : Clock) (v1 v2 : FormValues)
    (data1 data2 : CancelOrderFormData) :
  validating s1 = Some v1 ->
  validating s2 = Some v2 ->
  cancelOrderSchema clock1 v1 = OK data1 ->
  cancelOrderSchema clock2 v2 = OK data2 ->
  Values.reasonForCancellation v1 = Values.reasonForCancellation v2 ->
  exists reason s1' s2',
    Values.reasonForCancellation v1 = defined reason
    /\ step order s1 (resolver_done clock1) = Some s1'
    /\ step order s2 (resolver_done clock2) = Some s2'
    /\ calls s1'
       = calls s1 ++ [cancelOrder order {| fulfillerStatus := "DECLINED";
                                           fulfillerComment := reason |}]
    /\ calls s2'
       = calls s2 ++ [cancelOrder order {| fulfillerStatus := "DECLINED";
                                           fulfillerComment := reason |}].
Proof.
  intros Hv1 Hv2 E1 E2 Hreason.
  destruct (cancelOrderSchema_OK_inv _ _ _ E1) as (ms1 & _ & _ & Hr1 & _).
  destruct (cancelOrderSchema_OK_inv _ _ _ E2) as (ms2 & _ & _ & Hr2 & _).
  assert (Hsame : reasonForCancellation data2 = reasonForCancellation data1)
    by congruence.
  exists (reasonForCancellation data1). do 2 eexists.
  split; [exact Hr1|].
  split; [exact (step_resolver_done_valid _ _ _ _ Hv1 E1)|].
  split; [exact (step_resolver_done_valid _ _ _ _ Hv2 E2)|].
  split; [reflexivity|].
  cbn [calls setSubmitting cancelOrderRequest setInFlight emit
         setShowErrorNotification setFormErrors].
  now rewrite Hsame.
Qed.

(** What a failed validation does: no call is made, nothing is put in
    flight, and the errors of the failing fields become the form's errors. *)
Lemma validation_failure (s : State) (clock : Clock) (fieldValues : FormValues)
    (issues : list ZodIssue) :
  validating s = Some fieldValues ->
  cancelOrderSchema clock fieldValues = INVALID issues ->
  exists s',
    step order s (resolver_done clock) = Some s'
    /\ calls s' = calls s
    /\ inFlight s' = inFlight s
    /\ formErrors s' = errors (zodResolver (cancelOrderSchema clock) fieldValues)
    /\ formErrors s' <> ∅
    /\ showErrorNotification s' = showErrorNotification s.
Proof.
  intros Hv E. eexists.
  split; [exact (step_resolver_done_invalid _ _ _ _ Hv E)|].
  repeat split. cbn [formErrors setSubmitting setFormErrors].
  rewrite resolver_errors_empty_iff. intros [data Hd]. congruence.
Qed.

(** No step of the form turns the "fill all the required fields" notice
    on. *)
Lemma step_showErrorNotification (s s' : State) (e : Event) :
  step order s e = Some s' ->
  showErrorNotification s' = true -> showErrorNotification s = true.
Proof.
  destruct e as [date|text| | |clock|i outcome].
  - now intros [= <-].
  - now intros [= <-].
  - now intros [= <-].
  - simpl. destruct (isSubmitting s); [discriminate|]. now intros [= <-].
  - destruct (validating s) as [fieldValues|] eqn:Hv.
    + destruct (cancelOrderSchema clock fieldValues) as [data|issues] eqn:E.
      * rewrite (step_resolver_done_valid _ _ _ _ Hv E). now intros [= <-].
      * rewrite (step_resolver_done_invalid _ _ _ _ Hv E). now intros [= <-].
    + unfold step. now rewrite Hv.
  - simpl. destruct (inFlight s !! i); [|discriminate].
    destruct outcome; now intros [= <-].
Qed.

Lemma run_showErrorNotification (events : list Event) (s s' : State) :
  run order events s = Some s' ->
  showErrorNotification s = false -> showErrorNotification s' = false.
Proof.
  revert s. induction events as [|e events IH]; intros s; simpl.
  - now intros [= <-].
  - destruct (step order s e) as [s1|] eqn:E; [|discriminate].
    intros Hrun Hs. apply (IH _ Hrun).
    destruct (showErrorNotification s1) eqn:H1; [|reflexivity].
    apply (step_showErrorNotification _ _ _ E) in H1. congruence.
Qed.

(** Once the resolver is done the primary button is enabled again, whether
    or not a request has just been put in flight. *)
Lemma step_resolver_done_enabled (s s' : State) (clock : Clock) :
  step order s (resolver_done clock) = Some s' -> submit_disabled s' = false.
Proof.
  unfold step. destruct (validating s); [|discriminate].
  now intros [= <-].
Qed.

End Submission.

End OrderCancellationFormProperties.

(** *** The form on sample inputs *)

Import OrderCancellationForm.

(** A submission with today's date and the reason "duplicate order". *)
Lemma cancelOrderRequest_sample :
  validating (Sample.submitted Sample.filled) = Some Sample.filled
  /\ cancelOrderSchema Sample.clock Sample.filled
     = OK {| cancellationDate := Sample.today;
             reasonForCancellation := "duplicate order" |}
  /\ exists s1,
       step Sample.order (Sample.submitted Sample.filled) (resolver_done Sample.clock)
       = Some s1
       /\ calls s1 = [cancelOrder Sample.order (Sample.declined "duplicate order")].
Proof.
  split; [reflexivity|]. split; [vm_compute; reflexivity|].
  destruct (cancelOrderRequest_spec Sample.order (Sample.submitted Sample.filled)
              Sample.clock Sample.filled
              {| cancellationDate := Sample.today;
                 reasonForCancellation := "duplicate order" |})
    as (_ & s1 & Hstep & Hcalls & _); [reflexivity | vm_compute; reflexivity |].
  exists s1. split; [exact Hstep | exact Hcalls].
Defined.

(** New York on 3 November 2024 at 14:30, after the clocks went back at
    02:00: the day began at 00:00 daylight time, the instant 1730606400000.
    That instant is accepted, the millisecond before it is not, and the
    local time at it is midnight. *)
Lemma cancellationDate_validation_new_york :
  let error_of ms :=
    errors (zodResolver (cancelOrderSchema Sample.new_york_afternoon)
              {| Values.cancellationDate := defined (Date (Js.Num ms));
                 Values.reasonForCancellation := undefined |})
      !! "cancellationDate" in
  dayjs_startOf_day_toDate Sample.new_york_afternoon = Date (Js.Num 1730606400000)
  /\ error_of 1730606400000 = None
  /\ error_of 1730606399999
     = Some {| FieldError.type := custom;
               FieldError.message :=
                 t "dateCannotBeBeforeToday" "Date cannot be before today" [] |}
  /\ LocalTime Sample.new_york_afternoon 1730606400000 mod msPerDay = 0.
Proof.
  intros error_of. unfold error_of.
  pose proof (cancellationDate_validation Sample.new_york_afternoon undefined) as Hc.
  cbv zeta in Hc.
  destruct Hc as (_ & Haccepts & Hrejects & _ & Hstart & _ & _ & Hmidnight).
  split; [exact Hstart|].
  split; [apply Haccepts; vm_compute; discriminate|].
  split; [apply Hrejects; vm_compute; reflexivity|].
  exact (proj2 (proj2 (Hmidnight eq_refl))).
Defined.

(** Two submissions with the same reason, one dated today and one dated
    tomorrow. *)
Lemma cancelOrder_call_independent_of_date_sample :
  validating (Sample.submitted Sample.filled) = Some Sample.filled
  /\ validating (Sample.submitted Sample.filled_for_tomorrow)
     = Some Sample.filled_for_tomorrow
  /\ Values.cancellationDate Sample.filled
     <> Values.cancellationDate Sample.filled_for_tomorrow
  /\ Values.reasonForCancellation Sample.filled
     = Values.reasonForCancellation Sample.filled_for_tomorrow
  /\ exists s1' s2',
       step Sample.order (Sample.submitted Sample.filled) (resolver_done Sample.clock)
       = Some s1'
       /\ step Sample.order (Sample.submitted Sample.filled_for_tomorrow)
            (resolver_done Sample.clock)
          = Some s2'
       /\ calls s1' = calls s2'.
Proof.
  split; [reflexivity|]. split; [reflexivity|]. split; [discriminate|].
  split; [reflexivity|].
  destruct (cancelOrder_call_independent_of_date Sample.order
              (Sample.submitted Sample.filled)
              (Sample.submitted Sample.filled_for_tomorrow)
              Sample.clock Sample.clock Sample.filled Sample.filled_for_tomorrow
              {| cancellationDate := Sample.today;
                 reasonForCancellation := "duplicate order" |}
              {| cancellationDate := Sample.tomorrow;
                 reasonForCancellation := "duplicate order" |})
    as (reason & s1' & s2' & _ & Hstep1 & Hstep2 & Hcalls1 & Hcalls2);
    [ reflexivity | reflexivity | vm_compute; reflexivity | vm_compute; reflexivity
    | reflexivity | ].
  exists s1', s2'. split; [exact Hstep1|]. split; [exact Hstep2|].
  rewrite Hcalls1, Hcalls2. reflexivity.
Defined.

(** Date yesterday, reason "duplicate": validation fails on the date field
    only and nothing is called. *)
Example submit_yesterday :
  exists s,
    run Sample.order
      [ change_cancellationDate (defined Sample.yesterday);
        change_reasonForCancellation "duplicate";
        click_submit;
        resolver_done Sample.clock ]
      initialState = Some s
    /\ formErrors s !! "cancellationDate"
       = Some {| FieldError.type := custom;
                 FieldError.message :=
                   t "dateCannotBeBeforeToday" "Date cannot be before today" [] |}
    /\ formErrors s !! "reasonForCancellation" = None
    /\ calls s = []
    /\ inFlight s = [].
Proof.
  eexists. split; [vm_compute; reflexivity|].
  repeat split; vm_compute; reflexivity.
Qed.

(** Date today, reason "duplicate order": one call; when it is fulfilled the
    workspace is closed, the orders are fetched again and the success
    notification names ORD-42; when it is rejected only the error
    notification follows. *)
Example submit_today :
  (exists s,
     run Sample.order
       [ change_cancellationDate (defined Sample.today);
         change_reasonForCancellation "duplicate order";
         click_submit;
         resolver_done Sample.clock;
         settle 0 fulfilled ]
       initialState = Some s
     /\ calls s
        = [ cancelOrder Sample.order (Sample.declined "duplicate order");
            closeWorkspace;
            mutate;
            showSnackbar
              {| isLowContrast := None;
                 title := t "orderCancelled" "Order cancelled" [];
                 kind := success;
                 subtitle :=
                   Some (t "successfullyCancelledOrder"
                           "Order {{orderNumber}} has been cancelled successfully"
                           [("orderNumber", "ORD-42")]) |} ]
     /\ inFlight s = [])
  /\ (exists s,
        run Sample.order
          [ change_cancellationDate (defined Sample.today);
            change_reasonForCancellation "duplicate order";
            click_submit;
            resolver_done Sample.clock;
            settle 0 (rejected (Some {| Rejection.message := Some "Internal Server Error" |})) ]
          initialState = Some s
        /\ calls s
           = [ cancelOrder Sample.order (Sample.declined "duplicate order");
               showSnackbar
                 {| isLowContrast := Some true;
                    title := t "errorCancellingOrder" "Error cancelling order" [];
                    kind := error;
                    subtitle := Some (Literal "Internal Server Error") |} ]
        /\ inFlight s = []).
Proof.
  split; eexists; (split; [vm_compute; reflexivity|]); split; reflexivity.
Qed.

(** C4, on the code: the schema has no error for an empty reason. After the
    reason was typed and cleared, a submission dated today passes validation
    and sends a request whose comment is empty. *)
Theorem reasonForCancellation_accepts_empty :
  (forall clock date,
     errors (zodResolver (cancelOrderSchema clock)
               {| Values.cancellationDate := date;
                  Values.reasonForCancellation := defined "" |})
       !! "reasonForCancellation"
     = None)
  /\ cancelOrderSchema Sample.clock
       {| Values.cancellationDate := defined Sample.today;
          Values.reasonForCancellation := defined "" |}
     = OK {| cancellationDate := Sample.today; reasonForCancellation := "" |}
  /\ exists s,
       run Sample.order
         [ change_cancellationDate (defined Sample.today);
           change_reasonForCancellation "d";
           change_reasonForCancellation "";
           click_submit;
           resolver_done Sample.clock ]
         initialState = Some s
       /\ formErrors s = ∅
       /\ calls s = [cancelOrder Sample.order (Sample.declined "")].
Proof.
  split; [|split].
  - intros clock date. apply reasonForCancellation_validation.
  - vm_compute. reflexivity.
  - eexists. split; [vm_compute; reflexivity|]. split; reflexivity.
Qed.

(** C7, on the code: a submission of the untouched form fails validation on
    both fields and makes no call, yet the "fill all the required fields"
    notice stays off. Whenever validation fails, no call is made, the form
    has errors, and the notice is left as it was; no sequence of events on a
    freshly mounted form ever turns it on. *)
Theorem required_fields_notice_never_shown :
  (exists s,
     run Sample.order [click_submit; resolver_done Sample.clock] initialState = Some s
     /\ formErrors s !! "cancellationDate"
        = Some {| FieldError.type := invalid_type;
                  FieldError.message :=
                    t "cancellationDateRequired" "Cancellation date is required" [] |}
     /\ formErrors s !! "reasonForCancellation"
        = Some {| FieldError.type := invalid_type;
                  FieldError.message :=
                    t "reasonForCancellationRequired"
                      "Reason for cancellation is required" [] |}
     /\ calls s = []
     /\ showErrorNotification s = false)
  /\ (forall order s clock fieldValues issues,
        validating s = Some fieldValues ->
        cancelOrderSchema clock fieldValues = INVALID issues ->
        exists s',
          step order s (resolver_done clock) = Some s'
          /\ calls s' = calls s
          /\ formErrors s' <> ∅
          /\ showErrorNotification s' = showErrorNotification s)
  /\ (forall order events s,
        run order events initialState = Some s ->
        showErrorNotification s = false).
Proof.
  split; [|split].
  - eexists. split; [vm_compute; reflexivity|].
    repeat split; vm_compute; reflexivity.
  - intros order s clock fieldValues issues Hv E.
    destruct (validation_failure order s clock fieldValues issues Hv E)
      as (s' & Hstep & Hcalls & _ & _ & Herrors & Hnotice).
    exists s'. repeat split; assumption.
  - intros order events s Hrun.
    now apply (run_showErrorNotification order events _ s Hrun).
Qed.

(** C9, on the code: once the resolver is done the primary button is
    enabled again. After a valid submission the request is in flight and the
    button is enabled; a second click then puts a second request in flight
    next to the first. *)
Theorem second_submission_while_in_flight :
  (forall order s clock s',
     step order s (resolver_done clock) = Some s' -> submit_disabled s' = false)
  /\ exists s1 s2,
       run Sample.order
         [ change_cancellationDate (defined Sample.today);
           change_reasonForCancellation "duplicate order";
           click_submit;
           resolver_done Sample.clock ]
         initialState = Some s1
       /\ inFlight s1 = [(Sample.order, Sample.declined "duplicate order")]
       /\ submit_disabled s1 = false
       /\ run Sample.order [click_submit; resolver_done Sample.clock] s1 = Some s2
       /\ inFlight s2
          = [ (Sample.order, Sample.declined "duplicate order");
              (Sample.order, Sample.declined "duplicate order") ]
       /\ calls s2
          = [ cancelOrder Sample.order (Sample.declined "duplicate order");
              cancelOrder Sample.order (Sample.declined "duplicate order") ].
Proof.
  split.
  - intros order s clock s'. apply step_resolver_done_enabled.
  - do 2 eexists.
    split; [vm_compute; reflexivity|].
    split; [reflexivity|]. split; [reflexivity|].
    split; [vm_compute; reflexivity|].
    split; reflexivity.
Qed.

(** * Further properties *)

(** ** Conditions overview: filtering, rendering, matching, sorting *)

Section ListFilter.
Context {A : Type}.

Lemma filter_idempotent (f : A -> bool) (l : list A) :
  List.filter f (List.filter f l) = List.filter f l.
Proof.
  induction l as [|x l IH]; simpl; [reflexivity|].
  destruct (f x) eqn:E; simpl; [rewrite E; f_equal|]; exact IH.
Qed.

Lemma filter_exclusive (f g : A -> bool) (l : list A) :
  (forall x, f x = true -> g x = false) ->
  List.filter g (List.filter f l) = [].
Proof.
  intros Hfg. induction l as [|x l IH]; simpl; [reflexivity|].
  destruct (f x) eqn:E; simpl; [rewrite (Hfg x E)|]; exact IH.
Qed.

(** Two filters that never both keep an element keep at most as many
    elements as there are, and exactly as many only if each element is kept
    by one of them. *)
Lemma filter_exclusive_length (f g : A -> bool) (l : list A) :
  (forall x, f x = true -> g x = false) ->
  (length (List.filter f l) + length (List.filter g l) <= length l)%nat
  /\ ((length (List.filter f l) + length (List.filter g l) = length l)%nat
      <-> forall x, x ∈ l -> f x = true \/ g x = true).
Proof.
  intros Hfg. induction l as [|x l [IHle IHeq]]; simpl.
  - split; [lia|]. split; [|reflexivity]. intros _ x Hx. inversion Hx.
  - destruct (f x) eqn:Ef; [rewrite (Hfg x Ef)|destruct (g x) eqn:Eg]; simpl.
    + split; [lia|]. split.
      * intros E x' Hx'. apply elem_of_cons in Hx' as [->|Hx']; [now left|].
        apply IHeq; [lia | exact Hx'].
      * intros Hall. f_equal. apply IHeq. intros x' Hx'. apply Hall. now right.
    + split; [lia|]. split.
      * intros E x' Hx'. apply elem_of_cons in Hx' as [->|Hx']; [now right|].
        apply IHeq; [lia | exact Hx'].
      * intros Hall. rewrite Nat.add_succ_r. f_equal. apply IHeq.
        intros x' Hx'. apply Hall. now right.
    + split; [lia|]. split; [lia|].
      intros Hall. destruct (Hall x) as [E|E]; [left | congruence | congruence].
Qed.


End ListFilter.

Section MoreConditionsOverviewProperties.
Import ConditionsOverview ConditionsOverviewRender.
Context `{Framework} {Rest : Type} `{!Hooks Rest} {FetchError : Type}.

#[local] Abbreviation Condition := (Condition Rest).
#[local] Abbreviation ConditionTableRow := (ConditionTableRow Rest).
#[local] Abbreviation UseConditions := (@UseConditions Rest FetchError).

Lemma strict_eq_Active_Inactive (s : option string) :
  Js.strict_eq s "Active" = true -> Js.strict_eq s "Inactive" = false.
Proof. intros E. apply strict_eq_true_iff in E as ->. reflexivity. Qed.

Lemma strict_eq_Inactive_Active (s : option string) :
  Js.strict_eq s "Inactive" = true -> Js.strict_eq s "Active" = false.
Proof. intros E. apply strict_eq_true_iff in E as ->. reflexivity. Qed.

(** The filtered conditions of an array: always an array, a sublist of the
    input, holding the conditions the filter selects. *)
Lemma filteredConditions_Some (filter : Filter) (cs : list Condition) :
  exists out,
    filteredConditions filter (Some cs) = Some out
    /\ out `sublist_of` cs
    /\ forall c, c ∈ out <-> c ∈ cs /\ (filter = All \/ selected_by filter c).
Proof.
  assert (Hcases : filter = All \/ filter <> All)
    by (destruct filter; [now left | now right | now right]).
  destruct Hcases as [->|Hne].
  - exists cs. split; [reflexivity|]. split; [reflexivity|].
    intros c. split; [intros Hc; split; [exact Hc | now left] | now intros [Hc _]].
  - destruct (filteredConditions_status filter cs Hne) as (out & E & R).
    exists out. split; [exact E|]. split; [eapply retains_sublist, R|].
    intros c. rewrite (retains_elem_of _ _ _ R c). split.
    + intros [Hc Hs]. split; [exact Hc | now right].
    + intros [Hc [Hall|Hs]]; [contradiction | now split].
Qed.

(** X1: filtering composes as expected: a filter applied to its own output
    changes nothing, [All] before or after another filter is that filter,
    and [Active] and [Inactive] applied one after the other leave nothing.
    An undefined list stays undefined throughout. *)
Theorem filteredConditions_compose (filter : Filter) (conditions : option (list Condition)) :
  filteredConditions filter (filteredConditions filter conditions)
  = filteredConditions filter conditions
  /\ filteredConditions filter (filteredConditions All conditions)
     = filteredConditions filter conditions
  /\ filteredConditions All (filteredConditions filter conditions)
     = filteredConditions filter conditions
  /\ filteredConditions Inactive (filteredConditions Active conditions)
     = (fun _ => []) <$> conditions
  /\ filteredConditions Active (filteredConditions Inactive conditions)
     = (fun _ => []) <$> conditions.
Proof.
  split; [|split; [reflexivity|split; [reflexivity|split]]].
  - destruct filter, conditions as [cs|]; try reflexivity;
      unfold filteredConditions; simpl; f_equal; apply filter_idempotent.
  - destruct conditions as [cs|]; [|reflexivity].
    unfold filteredConditions; simpl; f_equal.
    apply filter_exclusive. intros c. apply strict_eq_Active_Inactive.
  - destruct conditions as [cs|]; [|reflexivity].
    unfold filteredConditions; simpl; f_equal.
    apply filter_exclusive. intros c. apply strict_eq_Inactive_Active.
Qed.

(** X2: no condition is listed under both [Active] and [Inactive]; the two
    lists together are never longer than the chart, and they account for the
    whole chart exactly when every condition has one of the two statuses. A
    condition with any other status, or none, is listed under [All] only. *)
Theorem filteredConditions_partition (conditions : list Condition) :
  exists active inactive,
    filteredConditions Active (Some conditions) = Some active
    /\ filteredConditions Inactive (Some conditions) = Some inactive
    /\ (forall c, c ∈ active -> c ∉ inactive)
    /\ (length active + length inactive <= length conditions)%nat
    /\ ((length active + length inactive = length conditions)%nat
        <-> forall c, c ∈ conditions ->
              clinicalStatus c = Some "Active" \/ clinicalStatus c = Some "Inactive").
Proof.
  do 2 eexists. split; [reflexivity|]. split; [reflexivity|].
  set (fa := fun c : Condition => Js.strict_eq (clinicalStatus c) "Active").
  set (fi := fun c : Condition => Js.strict_eq (clinicalStatus c) "Inactive").
  change (Filter_string Active) with "Active".
  change (Filter_string Inactive) with "Inactive".
  fold fa fi.
  assert (Hex : forall c, fa c = true -> fi c = false)
    by (intros c; apply strict_eq_Active_Inactive).
  destruct (filter_exclusive_length fa fi conditions Hex) as [Hle Heq].
  split; [|split; [exact Hle|]].
  - intros c Ha Hi.
    apply list_elem_of_In, List.filter_In in Ha as [_ Ha].
    apply list_elem_of_In, List.filter_In in Hi as [_ Hi].
    rewrite (Hex c Ha) in Hi. discriminate.
  - rewrite Heq. unfold fa, fi.
    split; intros Hall c Hc; destruct (Hall c Hc) as [E|E].
    + left. now apply strict_eq_true_iff.
    + right. now apply strict_eq_true_iff.
    + left. now apply strict_eq_true_iff.
    + right. now apply strict_eq_true_iff.
Qed.

(** With conditions fetched, the component returns the widget card. *)
Lemma render_widget (patientUuid : string) (conditionPageSize : Z)
    (data : UseConditions) (filter : Filter) (cs : list Condition) :
  isLoading data = false ->
  error data = None ->
  conditions data = Some cs ->
  cs <> [] ->
  exists out,
    filteredConditions filter (Some cs) = Some out
    /\ let rows :=
         usePagination (useConditionsSorting headers (Some (List.map tableRow out)))
           conditionPageSize in
       render patientUuid conditionPageSize data filter
       = Js.Normal (WidgetCard (isValidating data) rows (length rows) conditionPageSize
                      (length out) (pageUrl patientUuid)).
Proof.
  intros Hl He Hc Hne. unfold render. rewrite Hl, He, Hc.
  destruct cs as [|c cs]; [contradiction|]. cbn [truthy_length].
  destruct (filteredConditions_Some filter (c :: cs)) as (out & E & _ & _).
  exists out. split; [exact E|]. now rewrite E.
Qed.

(** X3: with the two hooks returning what their types promise, rendering
    never throws, although [filteredConditions.length] is read without a
    guard. While loading it gives the skeleton; otherwise, with an error,
    the error state; otherwise, with no conditions at all (none fetched, or
    an empty list), the empty state; otherwise the widget card. The rows of
    the card are what pagination returns for what sorting returns for the
    projected retained conditions, its current items are the number of
    those rows, and its total is the number of retained conditions, at most
    the number of conditions. *)
Theorem render_spec (patientUuid : string) (conditionPageSize : Z)
    (data : UseConditions) (filter : Filter) :
  exists view,
    render patientUuid conditionPageSize data filter = Js.Normal view
    /\ (isLoading data = true -> view = DataTableSkeleton)
    /\ (forall e,
          isLoading data = false -> error data = Some e ->
          view = ErrorState e (t "conditions" "Conditions" []))
    /\ (isLoading data = false -> error data = None ->
        conditions data = None \/ conditions data = Some [] ->
        view = EmptyState (t "conditions" "Conditions" []) (t "conditions" "Conditions" []))
    /\ (forall cs,
          isLoading data = false -> error data = None ->
          conditions data = Some cs -> cs <> [] ->
          exists out,
            filteredConditions filter (Some cs) = Some out
            /\ (length out <= length cs)%nat
            /\ let rows :=
                 usePagination
                   (useConditionsSorting headers (Some (List.map tableRow out)))
                   conditionPageSize in
               view = WidgetCard (isValidating data) rows (length rows)
                        conditionPageSize (length out) (pageUrl patientUuid)).
Proof.
  unfold render.
  destruct (isLoading data) eqn:Hl.
  { eexists. split; [reflexivity|]. repeat split; intros; congruence. }
  destruct (error data) as [e|] eqn:He.
  { eexists. split; [reflexivity|]. repeat split; intros; congruence. }
  destruct (conditions data) as [[|c cs]|] eqn:Hc; cbn [truthy_length].
  - eexists. split; [reflexivity|]. repeat split; intros; congruence.
  - destruct (filteredConditions_Some filter (c :: cs)) as (out & E & Hsub & _).
    rewrite E. cbn [length_of tableRows fmap option_fmap option_map].
    eexists. split; [reflexivity|].
    split; [discriminate|]. split; [discriminate|].
    split; [intros _ _ [[=]|[=]]|].
    intros cs' _ _ [= <-] _. exists out.
    split; [exact E|]. split; [now apply sublist_length|]. reflexivity.
  - eexists. split; [reflexivity|]. repeat split; intros; congruence.
Qed.

(** X4: when the chart has conditions but the status filter selects none of
    them, the component renders the widget card, not the empty state: the
    hooks are handed an empty list of table rows and the total is zero. If
    sorting only reorders its rows and pagination only selects among them,
    the card has no rows. *)
Theorem render_nothing_selected (patientUuid : string) (conditionPageSize : Z)
    (data : UseConditions) (filter : Filter) (cs : list Condition) :
  isLoading data = false ->
  error data = None ->
  conditions data = Some cs ->
  cs <> [] ->
  filter <> All ->
  (forall c, c ∈ cs -> clinicalStatus c <> Some (Filter_string filter)) ->
  let rows := usePagination (useConditionsSorting headers (Some [])) conditionPageSize in
  render patientUuid conditionPageSize data filter
  = Js.Normal (WidgetCard (isValidating data) rows (length rows) conditionPageSize
                 0 (pageUrl patientUuid))
  /\ ((forall l, exists sorted,
         useConditionsSorting headers (Some l) = Some sorted /\ sorted ≡ₚ l) ->
      (forall l n, usePagination (Some l) n `sublist_of` l) ->
      rows = []).
Proof.
  intros Hl He Hc Hne Hf Hnone rows.
  destruct (render_widget patientUuid conditionPageSize data filter cs Hl He Hc Hne)
    as (out & Eout & E).
  destruct (filteredConditions_Some filter cs) as (out' & Eout' & _ & Hmem).
  assert (out' = out) by congruence. subst out'.
  assert (out = []) as ->.
  { destruct out as [|c out]; [reflexivity|]. exfalso.
    destruct (proj1 (Hmem c)) as [Hin [Hall|Hs]]; [left | contradiction |].
    exact (Hnone c Hin Hs). }
  split; [exact E|].
  intros Hsort Hpage. unfold rows.
  destruct (Hsort []) as (sorted & -> & Hperm).
  apply Permutation_nil_r in Hperm. subst sorted.
  apply sublist_nil_r, Hpage.
Qed.



(** X7: the onset comparator is antisymmetric: swapping the rows negates a
    numeric result and keeps [NaN]; a row compared with itself gives zero
    unless its onset text does not parse, in which case it gives [NaN]. *)
Theorem onsetDateTimeRender_sortFunc_antisymmetric (a b : ConditionTableRow) :
  (forall x,
     onsetDateTimeRender_sortFunc a b = Js.Normal (Js.Number (Js.Num x)) ->
     onsetDateTimeRender_sortFunc b a = Js.Normal (Js.Number (Js.Num (- x))))
  /\ (onsetDateTimeRender_sortFunc a b = Js.Normal (Js.Number Js.NaN)
      <-> onsetDateTimeRender_sortFunc b a = Js.Normal (Js.Number Js.NaN))
  /\ (onsetDateTimeRender_sortFunc a a = Js.Normal (Js.Number (Js.Num 0))
      \/ (onsetDateTimeRender_sortFunc a a = Js.Normal (Js.Number Js.NaN)
          /\ Js.truthy (Row.onsetDateTime a) = true
          /\ Date_getTime (Row.onsetDateTime a) = Js.NaN)).
Proof.
  assert (Hswap : forall x y, Js.round_to_double (y - x) = - Js.round_to_double (x - y)).
  { intros x y. rewrite <- round_to_double_opp. f_equal. lia. }
  unfold onsetDateTimeRender_sortFunc.
  destruct (Js.truthy (Row.onsetDateTime a)) eqn:Ta,
           (Js.truthy (Row.onsetDateTime b)) eqn:Tb,
           (Date_getTime (Row.onsetDateTime a)) as [ta|] eqn:Ga,
           (Date_getTime (Row.onsetDateTime b)) as [tb|] eqn:Gb;
    cbn [andb Js.sub];
    (split; [|split]);
    try (intros x [= <-]; rewrite (Hswap ta tb); reflexivity);
    try (intros x [= <-]; reflexivity);
    try (intros x [=]);
    try (split; intros [=]);
    try (split; reflexivity);
    try (left; rewrite Z.sub_diag; reflexivity);
    try (left; reflexivity);
    try (right; repeat split; reflexivity).
Qed.


End MoreConditionsOverviewProperties.

(** The chart with one inactive condition, under the [Active] filter. *)
Lemma render_nothing_selected_sample :
  Sample2.resolved_chart <> []
  /\ ConditionsOverview.Active <> ConditionsOverview.All
  /\ (forall c, c ∈ Sample2.resolved_chart ->
        ConditionsOverview.clinicalStatus c <> Some "Active")
  /\ @ConditionsOverviewRender.render Sample.framework unit Sample2.hooks Empty_set
       "p1" 5 (Sample2.fetched Sample2.resolved_chart) ConditionsOverview.Active
     = Js.Normal (ConditionsOverviewRender.WidgetCard false [] 0 5 0
                    "${openmrsSpaBase}/patient/p1/chart/Conditions").
Proof.
  assert (Hnone : forall c, c ∈ Sample2.resolved_chart ->
                    ConditionsOverview.clinicalStatus c <> Some "Active").
  { intros c Hc. apply list_elem_of_singleton in Hc as ->. discriminate. }
  split; [discriminate|]. split; [discriminate|]. split; [exact Hnone|].
  apply (render_nothing_selected (H := Sample.framework) (Hooks0 := Sample2.hooks)
           "p1" 5 (Sample2.fetched Sample2.resolved_chart) ConditionsOverview.Active
           Sample2.resolved_chart);
    [reflexivity | reflexivity | reflexivity | discriminate | discriminate | exact Hnone].
Defined.




(** ** Order cancellation form: validation over time, sessions *)

Section MoreOrderCancellationFormProperties.
Import OrderCancellationForm OrderCancellationWorkspace.

(** *** Validation *)

(** X9: the schema accepts a form exactly when the date is a valid date not
    earlier than the instant of local midnight of today's local date and a
    reason text has been entered; the validated data are then the entered
    date and text, unchanged. *)
Theorem cancelOrderSchema_accepts_iff (clock : Clock) (v : FormValues)
    (data : CancelOrderFormData) :
  cancelOrderSchema clock v = OK data
  <-> exists ms,
        Values.cancellationDate v = defined (Date (Js.Num ms))
        /\ UTC clock (MakeDate (Day (LocalTime clock (now clock))) 0) <= ms
        /\ Values.reasonForCancellation v = defined (reasonForCancellation data)
        /\ cancellationDate data = Date (Js.Num ms).
Proof.
  change (UTC clock (MakeDate (Day (LocalTime clock (now clock))) 0))
    with (startOfDay clock).
  split; [apply cancelOrderSchema_OK_inv|].
  intros (ms & Hd & Hle & Hr & Hdata).
  destruct v as [date reason], data as [date' reason']. simpl in *. subst.
  now apply cancelOrderSchema_OK_intro.
Qed.

(** X10: the error map of the resolver has an entry for a field exactly
    when that field fails: the date when it is not a valid date on or after
    the instant of local midnight of today's local date, the reason when no
    text has been entered. No other key ever has an entry. *)
Theorem resolver_errors_exact (clock : Clock) (v : FormValues) (key : string) :
  is_Some (errors (zodResolver (cancelOrderSchema clock) v) !! key)
  <-> (key = "cancellationDate"
       /\ ~ exists ms,
            Values.cancellationDate v = defined (Date (Js.Num ms))
            /\ UTC clock (MakeDate (Day (LocalTime clock (now clock))) 0) <= ms)
      \/ (key = "reasonForCancellation"
          /\ ~ exists text, Values.reasonForCancellation v = defined text).
Proof.
  change (UTC clock (MakeDate (Day (LocalTime clock (now clock))) 0))
    with (startOfDay clock).
  assert (Hdate :
    is_Some (errors (zodResolver (cancelOrderSchema clock) v) !! "cancellationDate")
    <-> ~ exists ms, Values.cancellationDate v = defined (Date (Js.Num ms))
                     /\ startOfDay clock <= ms).
  { destruct v as [date reason]. rewrite resolver_cancellationDate_error. simpl.
    destruct date as [| |[[ms|]]];
      try (split; [intros _ (ms' & [=] & _) | intros _; eexists; reflexivity]).
    destruct (Z.leb_spec (startOfDay clock) ms) as [Hle|Hlt]; split.
    - now intros [? [=]].
    - intros Hno. exfalso. apply Hno. now exists ms.
    - intros _ (ms' & [= <-] & Hle). lia.
    - intros _. eexists. reflexivity. }
  assert (Hreason :
    is_Some (errors (zodResolver (cancelOrderSchema clock) v) !! "reasonForCancellation")
    <-> ~ exists text, Values.reasonForCancellation v = defined text).
  { destruct v as [date reason]. rewrite resolver_reasonForCancellation_error. simpl.
    destruct reason as [| |text];
      try (split; [intros _ (text' & [=]) | intros _; eexists; reflexivity]).
    split; [now intros [? [=]] | intros Hno; exfalso; apply Hno; now exists text]. }
  split.
  - intros HS. destruct (resolver_errors_keys clock v key HS) as [-> | ->].
    + left. split; [reflexivity | now apply Hdate].
    + right. split; [reflexivity | now apply Hreason].
  - intros [[-> Hno] | [-> Hno]]; [now apply Hdate | now apply Hreason].
Qed.

(** In an orderly zone the start of the day does not go back as time
    passes, and it is not later than now. *)
Lemma startOfDay_monotone (earlier later : Clock) :
  LocalTZA earlier = LocalTZA later ->
  orderly later ->
  now earlier <= now later ->
  startOfDay earlier <= startOfDay later.
Proof.
  destruct earlier as [n1 zone1], later as [n2 zone2]. cbn [LocalTZA now].
  intros -> (Hdays & Hmidnights & _) Hnow.
  unfold startOfDay. cbn [now].
  change (UTC {| now := n1; LocalTZA := zone2 |})
    with (UTC {| now := n2; LocalTZA := zone2 |}).
  change (LocalTime {| now := n1; LocalTZA := zone2 |})
    with (LocalTime {| now := n2; LocalTZA := zone2 |}).
  pose proof (Hdays n1 n2 Hnow) as Hd.
  destruct (Z.eq_dec (Day (LocalTime {| now := n2; LocalTZA := zone2 |} n1))
                     (Day (LocalTime {| now := n2; LocalTZA := zone2 |} n2))) as [->|Hne].
  - lia.
  - apply Z.lt_le_incl, Hmidnights. lia.
Qed.

Lemma startOfDay_le_now (clock : Clock) :
  orderly clock -> startOfDay clock <= now clock.
Proof. intros (_ & _ & H). apply H. Qed.

(** The sample zone with its change of offset is orderly. *)
Lemma new_york_orderly (n : Z) :
  orderly {| now := n; LocalTZA := Sample.new_york |}.
Proof.
  unfold orderly, LocalTime, UTC, Day, MakeDate, msPerDay, Sample.new_york.
  cbn [LocalTZA].
  split; [|split].
  - intros t1 t2 Ht.
    destruct (Z.ltb_spec t1 1730613600000), (Z.ltb_spec t2 1730613600000);
      Z.div_mod_to_equations; lia.
  - intros d1 d2 Hd.
    destruct (Z.ltb_spec (d1 * 86400000 + 0) (1730613600000 - 14400000)),
             (Z.ltb_spec (d2 * 86400000 + 0) (1730613600000 - 14400000)); lia.
  - intros t.
    destruct (Z.ltb_spec t 1730613600000);
      match goal with
      | |- ?m - (if ?m <? ?c then _ else _) <= _ => destruct (Z.ltb_spec m c)
      end;
      Z.div_mod_to_equations; lia.
Qed.

(** X11: validation of the date only gets stricter with time. In one time
    zone with an orderly calendar, a date that is accepted at some moment is
    accepted at every earlier moment, and a date rejected as before today
    stays rejected at every later moment. The current instant itself is
    always accepted. *)
Theorem cancellationDate_validation_over_time (earlier later : Clock)
    (date : FieldValue JsDate) (reason : FieldValue string) :
  LocalTZA earlier = LocalTZA later ->
  orderly later ->
  now earlier <= now later ->
  let error_at clock date :=
    errors (zodResolver (cancelOrderSchema clock)
              {| Values.cancellationDate := date; Values.reasonForCancellation := reason |})
      !! "cancellationDate" in
  (error_at later date = None -> error_at earlier date = None)
  /\ (is_Some (error_at earlier date) -> is_Some (error_at later date))
  /\ error_at later (defined (Date (Js.Num (now later)))) = None.
Proof.
  intros Hzone Horderly Hnow error_at. unfold error_at.
  pose proof (startOfDay_monotone earlier later Hzone Horderly Hnow) as Hmono.
  assert (Hacc : errors (zodResolver (cancelOrderSchema later)
                           {| Values.cancellationDate := date;
                              Values.reasonForCancellation := reason |})
                   !! "cancellationDate" = None ->
                 errors (zodResolver (cancelOrderSchema earlier)
                           {| Values.cancellationDate := date;
                              Values.reasonForCancellation := reason |})
                   !! "cancellationDate" = None).
  { rewrite !resolver_cancellationDate_error.
    destruct date as [| |[[ms|]]]; try discriminate.
    destruct (Z.leb_spec (startOfDay later) ms); [|discriminate].
    intros _. destruct (Z.leb_spec (startOfDay earlier) ms); [reflexivity | lia]. }
  split; [exact Hacc|]. split.
  - intros HS.
    destruct (errors (zodResolver (cancelOrderSchema later) _) !! "cancellationDate")
      eqn:E; [eauto|].
    rewrite (Hacc eq_refl) in HS. now destruct HS.
  - rewrite resolver_cancellationDate_error.
    pose proof (startOfDay_le_now later Horderly) as Hle.
    apply Z.leb_le in Hle. now rewrite Hle.
Qed.

(** X12: the earliest date the picker offers is the start of the day on
    which the form was rendered. In one time zone with an orderly calendar,
    validation accepts it exactly when the local date at validation is
    still the local date at rendering. *)
Theorem minDate_validation (rendered validated : Clock) (reason : FieldValue string) :
  LocalTZA rendered = LocalTZA validated ->
  orderly validated ->
  now rendered <= now validated ->
  errors (zodResolver (cancelOrderSchema validated)
            {| Values.cancellationDate := defined (minDate rendered);
               Values.reasonForCancellation := reason |})
    !! "cancellationDate" = None
  <-> Day (LocalTime validated (now validated)) = Day (LocalTime rendered (now rendered)).
Proof.
  intros Hzone Horderly Hnow. unfold minDate.
  rewrite resolver_cancellationDate_error.
  destruct rendered as [n1 zone1], validated as [n2 zone2]. cbn [LocalTZA now] in *.
  subst zone1. destruct Horderly as (Hdays & Hmidnights & _).
  unfold startOfDay. cbn [now].
  change (UTC {| now := n1; LocalTZA := zone2 |})
    with (UTC {| now := n2; LocalTZA := zone2 |}).
  change (LocalTime {| now := n1; LocalTZA := zone2 |})
    with (LocalTime {| now := n2; LocalTZA := zone2 |}).
  pose proof (Hdays n1 n2 Hnow) as Hd.
  set (d1 := Day (LocalTime {| now := n2; LocalTZA := zone2 |} n1)) in *.
  set (d2 := Day (LocalTime {| now := n2; LocalTZA := zone2 |} n2)) in *.
  destruct (Z.eq_dec d2 d1) as [E|Hne].
  - rewrite E, Z.leb_refl. split; intros _; reflexivity.
  - pose proof (Hmidnights d1 d2 ltac:(lia)) as Hlt.
    destruct (Z.leb_spec (UTC {| now := n2; LocalTZA := zone2 |} (MakeDate d2 0))
                         (UTC {| now := n2; LocalTZA := zone2 |} (MakeDate d1 0)));
      [lia|]. split; [discriminate | contradiction].
Qed.

(** *** Sessions *)

Section Sessions.
Context (order : Order).

Lemma count_snoc (kind : Call -> bool) (l : list Call) (c : Call) :
  count kind (l ++ [c]) = (count kind l + (if kind c then 1 else 0))%nat.
Proof.
  unfold count. rewrite List.filter_app, length_app. simpl.
  destruct (kind c); simpl; lia.
Qed.

Lemma interact_submitting (s s' : State) (i : Interaction) :
  interact order s i = Some s' ->
  (isSubmitting s = true <-> is_Some (validating s)) ->
  (isSubmitting s' = true <-> is_Some (validating s')).
Proof.
  destruct i as [[date|text| | |clock|j outcome]|]; simpl.
  - now intros [= <-].
  - now intros [= <-].
  - now intros [= <-].
  - destruct (isSubmitting s); [discriminate|]. intros [= <-] _. simpl.
    split; eauto.
  - destruct (validating s); [|discriminate]. intros [= <-] _.
    unfold handleSubmit. simpl. split; [discriminate | now intros [? [=]]].
  - destruct (inFlight s !! j); [|discriminate].
    destruct outcome; now intros [= <-].
  - now intros [= <-].
Qed.

Lemma session_submitting_from (interactions : list Interaction) (s s' : State) :
  session order interactions s = Some s' ->
  (isSubmitting s = true <-> is_Some (validating s)) ->
  (isSubmitting s' = true <-> is_Some (validating s')).
Proof.
  revert s. induction interactions as [|i interactions IH]; intros s; simpl.
  - now intros [= <-].
  - destruct (interact order s i) as [s1|] eqn:E; [|discriminate].
    intros Hrun Hs. apply (IH _ Hrun). exact (interact_submitting _ _ _ E Hs).
Qed.

(** X13: in every state a session can reach, the primary button is
    disabled exactly while a submission waits for the resolver, and a click
    on it is then without effect; so no two validations are ever pending
    together. *)
Theorem session_submitting (interactions : list Interaction) (s : State) :
  session order interactions initialState = Some s ->
  (submit_disabled s = true <-> is_Some (validating s))
  /\ (interact order s (on_form click_submit) = None <-> is_Some (validating s)).
Proof.
  intros Hrun.
  assert (Hinv : isSubmitting s = true <-> is_Some (validating s)).
  { apply (session_submitting_from _ _ _ Hrun). simpl.
    split; [discriminate | now intros [? [=]]]. }
  split; [exact Hinv|].
  rewrite <- Hinv. simpl. destruct (isSubmitting s); split; congruence.
Qed.

Lemma interact_accounted (s s' : State) (i : Interaction) :
  interact order s i = Some s' -> accounted s -> accounted s'.
Proof.
  unfold accounted.
  destruct i as [[date|text| | |clock|j outcome]|]; cbn [interact].
  - now intros [= <-].
  - now intros [= <-].
  - now intros [= <-].
  - simpl. destruct (isSubmitting s); [discriminate|]. now intros [= <-].
  - destruct (validating s) as [v|] eqn:Hv.
    + destruct (cancelOrderSchema clock v) as [data|issues] eqn:E.
      * rewrite (step_resolver_done_valid _ _ _ _ _ Hv E). intros [= <-].
        cbn [calls inFlight setSubmitting cancelOrderRequest setInFlight emit
               setShowErrorNotification setFormErrors].
        rewrite !count_snoc, length_app. simpl. lia.
      * rewrite (step_resolver_done_invalid _ _ _ _ _ Hv E). now intros [= <-].
    + unfold step. now rewrite Hv.
  - simpl. destruct (inFlight s !! j) as [p|] eqn:Hj; [|discriminate].
    assert (Hlen : length (delete j (inFlight s)) = (length (inFlight s) - 1)%nat)
      by (apply length_delete; eauto).
    apply lookup_lt_Some in Hj.
    destruct outcome; intros [= <-];
      cbn [calls inFlight onFulfilled onRejected emit setInFlight];
      rewrite !count_snoc, Hlen; simpl; lia.
  - intros [= <-]. cbn [calls inFlight emit]. rewrite !count_snoc. simpl. lia.
Qed.

(** X14: in every state a session can reach, each [cancelOrder] request
    made so far has either been answered by exactly one notification or is
    still in flight (never a notification without a request); the orders
    were fetched again exactly once per success notification; and the
    workspace was asked to close at least that often. *)
Theorem session_accounted (interactions : list Interaction) (s : State) :
  session order interactions initialState = Some s -> accounted s.
Proof.
  assert (Hgen : forall s0, session order interactions s0 = Some s ->
                            accounted s0 -> accounted s).
  { induction interactions as [|i interactions IH]; intros s0; simpl.
    - now intros [= <-].
    - destruct (interact order s0 i) as [s1|] eqn:E; [|discriminate].
      intros Hrun Hs0. apply (IH _ Hrun). exact (interact_accounted _ _ _ E Hs0). }
  intros Hrun. apply (Hgen _ Hrun). unfold accounted, count. simpl. lia.
Qed.

Lemma entered_reasons_cons (i : Interaction) (interactions : list Interaction) :
  entered_reasons (i :: interactions) = entered_reasons [i] ++ entered_reasons interactions.
Proof. destruct i as [[]|]; reflexivity. Qed.

Lemma requests_from_mono (entered entered' : string -> Prop) (s : State) :
  (forall text, entered text -> entered' text) ->
  requests_from order entered s -> requests_from order entered' s.
Proof.
  intros Hsub (Hf & Hv & Hc). split; [|split].
  - intros text E. exact (Hsub _ (Hf _ E)).
  - intros v text E1 E2. exact (Hsub _ (Hv _ _ E1 E2)).
  - intros o p Hin. destruct (Hc o p Hin) as (Ho & Hs & He).
    split; [exact Ho|]. split; [exact Hs | exact (Hsub _ He)].
Qed.

Lemma requests_from_emit (entered : string -> Prop) (s : State) (c : Call) :
  is_cancelOrder c = false ->
  requests_from order entered s -> requests_from order entered (emit c s).
Proof.
  intros Hc (Hf & Hv & Hcalls). split; [exact Hf|]. split; [exact Hv|].
  intros o p Hin. cbn [calls emit] in Hin.
  apply elem_of_app in Hin as [Hin|Hin]; [exact (Hcalls o p Hin)|].
  apply list_elem_of_singleton in Hin. subst c. discriminate.
Qed.

Lemma interact_requests_from (entered : string -> Prop) (s s' : State) (i : Interaction) :
  requests_from order entered s ->
  interact order s i = Some s' ->
  requests_from order (fun text => entered text \/ text ∈ entered_reasons [i]) s'.
Proof.
  intros Hs.
  assert (Hs' : requests_from order
                  (fun text => entered text \/ text ∈ entered_reasons [i]) s)
    by (apply (requests_from_mono entered); [now left | exact Hs]).
  destruct Hs as (Hf & Hv & Hc).
  destruct i as [[date|text| | |clock|j outcome]|]; cbn [interact].
  - intros [= <-]. exact Hs'.
  - intros [= <-]. destruct Hs' as (_ & Hv' & Hc').
    split; [|split; [exact Hv' | exact Hc']].
    intros text' [= <-]. right. left.
  - intros [= <-]. exact Hs'.
  - simpl. destruct (isSubmitting s); [discriminate|]. intros [= <-].
    destruct Hs' as (Hf' & _ & Hc').
    split; [exact Hf'|]. split; [|exact Hc'].
    intros v text [= <-] E. exact (Hf' _ E).
  - destruct (validating s) as [v|] eqn:Hval.
    + destruct (cancelOrderSchema clock v) as [data|issues] eqn:E.
      * rewrite (step_resolver_done_valid _ _ _ _ _ Hval E). intros [= <-].
        destruct (cancelOrderSchema_OK_inv _ _ _ E) as (ms & _ & _ & Hreason & _).
        destruct Hs' as (Hf' & Hv' & Hc').
        split; [exact Hf'|]. split; [intros ? ? [=]|].
        intros o p Hin.
        cbn [calls setSubmitting cancelOrderRequest setInFlight emit
               setShowErrorNotification setFormErrors] in Hin.
        apply elem_of_app in Hin as [Hin|Hin]; [exact (Hc' o p Hin)|].
        apply list_elem_of_singleton in Hin. injection Hin as -> ->.
        split; [reflexivity|]. split; [reflexivity|].
        exact (Hv' v _ Hval Hreason).
      * rewrite (step_resolver_done_invalid _ _ _ _ _ Hval E). intros [= <-].
        destruct Hs' as (Hf' & _ & Hc').
        split; [exact Hf'|]. split; [intros ? ? [=] | exact Hc'].
    + unfold step. now rewrite Hval.
  - simpl. destruct (inFlight s !! j); [|discriminate].
    destruct outcome; intros [= <-].
    + unfold onFulfilled. repeat (apply requests_from_emit; [reflexivity|]). exact Hs'.
    + unfold onRejected. apply requests_from_emit; [reflexivity|]. exact Hs'.
  - intros [= <-]. apply requests_from_emit; [reflexivity | exact Hs'].
Qed.

Lemma session_requests_from (interactions : list Interaction)
    (entered : string -> Prop) (s s' : State) :
  requests_from order entered s ->
  session order interactions s = Some s' ->
  requests_from order
    (fun text => entered text \/ text ∈ entered_reasons interactions) s'.
Proof.
  revert entered s. induction interactions as [|i interactions IH]; intros entered s Hs.
  - simpl. intros [= <-]. apply (requests_from_mono entered); [now left | exact Hs].
  - simpl. destruct (interact order s i) as [s1|] eqn:E; [|discriminate].
    intros Hrun.
    pose proof (IH _ _ (interact_requests_from _ _ _ _ Hs E) Hrun) as Hs'.
    revert Hs'. apply requests_from_mono.
    intros text [[Ht|Ht]|Ht]; [now left | right | right];
      change (text ∈ entered_reasons (i :: interactions));
      rewrite entered_reasons_cons; apply elem_of_app; [now left | now right].
Qed.

(** X15: whatever the user does, every [cancelOrder] request the form makes
    is for the order of the workspace, has the status [DECLINED], and has as
    its comment a text that was entered in the reason field during the
    session. *)
Theorem session_requests (interactions : list Interaction) (s : State)
    (o : Order) (p : Payload) :
  session order interactions initialState = Some s ->
  cancelOrder o p ∈ calls s ->
  o = order
  /\ fulfillerStatus p = "DECLINED"
  /\ fulfillerComment p ∈ entered_reasons interactions.
Proof.
  intros Hrun Hin.
  assert (H0 : requests_from order (fun _ => False) initialState).
  { split; [|split]; simpl; [discriminate | discriminate |].
    intros o' p' Hin'. inversion Hin'. }
  destruct (session_requests_from _ _ _ _ H0 Hrun) as (_ & _ & Hc).
  destruct (Hc o p Hin) as (Ho & Hs & [[]|He]).
  split; [exact Ho|]. split; [exact Hs | exact He].
Qed.

(** X16: "Discard" does not cancel a request in flight. It asks the
    workspace to close and leaves the request pending; when the request is
    later fulfilled the form asks the workspace to close a second time,
    fetches the orders again and shows the success notification. *)
Theorem discard_keeps_request (s : State) (i : nat) (p : Order * Payload) :
  inFlight s !! i = Some p ->
  exists s1 s2,
    interact order s click_discard = Some s1
    /\ inFlight s1 = inFlight s
    /\ calls s1 = calls s ++ [closeWorkspace]
    /\ interact order s1 (on_form (settle i fulfilled)) = Some s2
    /\ inFlight s2 = delete i (inFlight s)
    /\ calls s2
       = calls s
         ++ [ closeWorkspace; closeWorkspace; mutate;
              showSnackbar
                {| isLowContrast := None;
                   title := t "orderCancelled" "Order cancelled" [];
                   kind := success;
                   subtitle :=
                     Some (t "successfullyCancelledOrder"
                             "Order {{orderNumber}} has been cancelled successfully"
                             [("orderNumber", orderNumber order)]) |} ].
Proof.
  intros Hi. do 2 eexists.
  split; [reflexivity|]. split; [reflexivity|]. split; [reflexivity|].
  cbn [interact step inFlight emit]. rewrite Hi.
  split; [reflexivity|]. split; [reflexivity|].
  cbn [calls onFulfilled emit setInFlight]. now rewrite <- !app_assoc.
Qed.

End Sessions.

End MoreOrderCancellationFormProperties.

(** *** Sessions on sample inputs *)

Import OrderCancellationWorkspace.

(** New York on the day daylight saving time ends, 14:30, and ten minutes
    after the following midnight; the date is that day's local midnight,
    2024-11-03 04:00 UTC. *)
Lemma cancellationDate_validation_over_time_sample :
  LocalTZA Sample.new_york_afternoon = LocalTZA Sample.new_york_next_day
  /\ now Sample.new_york_afternoon <= now Sample.new_york_next_day
  /\ errors (zodResolver (cancelOrderSchema Sample.new_york_afternoon)
               (Sample2.dated 1730606400000))
       !! "cancellationDate" = None
  /\ is_Some (errors (zodResolver (cancelOrderSchema Sample.new_york_next_day)
                        (Sample2.dated 1730606400000))
                !! "cancellationDate")
  /\ errors (zodResolver (cancelOrderSchema Sample.new_york_next_day)
               (Sample2.dated (now Sample.new_york_next_day)))
       !! "cancellationDate" = None.
Proof.
  split; [reflexivity|]. split; [vm_compute; discriminate|].
  split; [vm_compute; reflexivity|]. split; [vm_compute; eauto|].
  apply (cancellationDate_validation_over_time
           Sample.new_york_afternoon Sample.new_york_next_day
           (defined (Date (Js.Num 1730606400000))) (defined "duplicate order"));
    [reflexivity | exact (new_york_orderly _) | vm_compute; discriminate].
Defined.

(** The form rendered in New York at 14:30 and validated ten minutes after
    the following midnight. *)
Lemma minDate_validation_sample :
  LocalTZA Sample.new_york_afternoon = LocalTZA Sample.new_york_next_day
  /\ now Sample.new_york_afternoon <= now Sample.new_york_next_day
  /\ minDate Sample.new_york_afternoon = Date (Js.Num 1730606400000)
  /\ Day (LocalTime Sample.new_york_next_day (now Sample.new_york_next_day))
     <> Day (LocalTime Sample.new_york_afternoon (now Sample.new_york_afternoon))
  /\ errors (zodResolver (cancelOrderSchema Sample.new_york_next_day)
               {| Values.cancellationDate := defined (minDate Sample.new_york_afternoon);
                  Values.reasonForCancellation := defined "duplicate order" |})
       !! "cancellationDate" <> None.
Proof.
  assert (Hday :
    Day (LocalTime Sample.new_york_next_day (now Sample.new_york_next_day))
    <> Day (LocalTime Sample.new_york_afternoon (now Sample.new_york_afternoon)))
    by (vm_compute; discriminate).
  split; [reflexivity|]. split; [vm_compute; discriminate|].
  split; [vm_compute; reflexivity|]. split; [exact Hday|].
  intros E. apply Hday.
  apply (minDate_validation Sample.new_york_afternoon Sample.new_york_next_day
           (defined "duplicate order"));
    [reflexivity | exact (new_york_orderly _) | vm_compute; discriminate | exact E].
Defined.

(** A filled form right after the click on the primary button. *)
Lemma session_submitting_sample :
  exists s,
    session Sample.order
      [ on_form (change_cancellationDate (defined Sample.today));
        on_form (change_reasonForCancellation "duplicate order");
        on_form click_submit ]
      initialState = Some s
    /\ submit_disabled s = true
    /\ interact Sample.order s (on_form click_submit) = None.
Proof.
  eexists. split; [vm_compute; reflexivity|].
  split; [reflexivity|].
  apply (session_submitting Sample.order
           [ on_form (change_cancellationDate (defined Sample.today));
             on_form (change_reasonForCancellation "duplicate order");
             on_form click_submit ]);
    [vm_compute; reflexivity | vm_compute; eauto].
Defined.

(** Two submissions, the first rejected by the server and the second still
    in flight, then "Discard". *)
Lemma session_accounted_sample :
  exists s,
    session Sample.order
      [ on_form (change_cancellationDate (defined Sample.today));
        on_form (change_reasonForCancellation "duplicate order");
        on_form click_submit;
        on_form (resolver_done Sample.clock);
        on_form (settle 0 (rejected None));
        on_form click_submit;
        on_form (resolver_done Sample.clock);
        click_discard ]
      initialState = Some s
    /\ count is_cancelOrder (calls s) = 2%nat
    /\ length (inFlight s) = 1%nat
    /\ count is_showSnackbar (calls s) = 1%nat
    /\ accounted s.
Proof.
  eexists. split; [vm_compute; reflexivity|].
  split; [reflexivity|]. split; [reflexivity|]. split; [reflexivity|].
  apply (session_accounted Sample.order
           [ on_form (change_cancellationDate (defined Sample.today));
             on_form (change_reasonForCancellation "duplicate order");
             on_form click_submit;
             on_form (resolver_done Sample.clock);
             on_form (settle 0 (rejected None));
             on_form click_submit;
             on_form (resolver_done Sample.clock);
             click_discard ]).
  vm_compute. reflexivity.
Defined.

(** A reason typed, replaced, and submitted. *)
Lemma session_requests_sample :
  exists s,
    session Sample.order
      [ on_form (change_cancellationDate (defined Sample.today));
        on_form (change_reasonForCancellation "dup");
        on_form (change_reasonForCancellation "duplicate order");
        on_form click_submit;
        on_form (resolver_done Sample.clock) ]
      initialState = Some s
    /\ cancelOrder Sample.order (Sample.declined "duplicate order") ∈ calls s
    /\ "duplicate order" ∈ ["dup"; "duplicate order"].
Proof.
  eexists. split; [vm_compute; reflexivity|].
  match goal with
  | |- _ ∈ calls ?s /\ _ =>
      assert (Hin : cancelOrder Sample.order (Sample.declined "duplicate order") ∈ calls s)
        by left;
      split; [exact Hin|];
      apply (session_requests Sample.order
               [ on_form (change_cancellationDate (defined Sample.today));
                 on_form (change_reasonForCancellation "dup");
                 on_form (change_reasonForCancellation "duplicate order");
                 on_form click_submit;
                 on_form (resolver_done Sample.clock) ]
               s Sample.order (Sample.declined "duplicate order"));
        [vm_compute; reflexivity | exact Hin]
  end.
Defined.

(** "Discard" while the request of a valid submission is in flight. *)
Lemma discard_keeps_request_sample :
  exists s s2,
    session Sample.order
      [ on_form (change_cancellationDate (defined Sample.today));
        on_form (change_reasonForCancellation "duplicate order");
        on_form click_submit;
        on_form (resolver_done Sample.clock) ]
      initialState = Some s
    /\ inFlight s !! 0%nat = Some (Sample.order, Sample.declined "duplicate order")
    /\ session Sample.order [click_discard; on_form (settle 0 fulfilled)] s = Some s2
    /\ count is_closeWorkspace (calls s2) = 2%nat.
Proof.
  eexists. eexists. split; [vm_compute; reflexivity|].
  split; [reflexivity|].
  match goal with
  | |- session _ _ ?s = _ /\ _ =>
      destruct (discard_keeps_request Sample.order s 0
                  (Sample.order, Sample.declined "duplicate order") eq_refl)
        as (s1 & s2 & H1 & _ & _ & H2 & _ & Hcalls)
  end.
  split; [vm_compute; reflexivity | reflexivity].
Defined.
